(** * BookLibary: a shallow embedding of [main.py]

    The application is a Flask program over two SQLAlchemy tables ([User],
    [Book]), three WTForms forms and Flask-Login sessions.  Each view
    function of [main.py] becomes a function from the store, the client's
    session and the request to an [Outcome]: the store and session after the
    request, the messages flashed and the response returned.

    Library routines whose code is not part of the repository (Python's
    [float], the e-mail validator, werkzeug's password hashing, the store's
    conversion of a URL segment to an integer key) are the fields of the
    class [Platform]; every theorem holds for all of them, and [demo] is one
    executable instance used by the examples. *)

From Stdlib Require Import Floats Strings.Ascii Strings.String.
From Stdlib Require Import NArith ZArith Uint63.
From stdpp Require Import base option list strings.

Local Open Scope string_scope.
Local Open Scope list_scope.

(** ** Tables *)

(** [class User(UserMixin, db.Model)] *)
Module User.
Record t : Type := mk {
  id : nat;            (* primary key *)
  email : string;      (* unique, not null *)
  password : string;   (* not null *)
  name : string        (* not null *)
}.
End User.

(** [class Book(db.Model)] *)
Module Book.
Record t : Type := mk {
  id : nat;            (* primary key *)
  title : string;
  author : string;
  rating : float;
  user_id : nat        (* foreign key to [User.id] *)
}.

(** [book.rating = r] on a loaded row. *)
Definition set_rating (r : float) (b : t) : t :=
  {| id := id b; title := title b; author := author b;
     rating := r; user_id := user_id b |}.
End Book.

(** The database: the rows of each table in key order. *)
Record Store : Type := mkStore {
  users : list User.t;
  books : list Book.t
}.

(** What Flask-Login keeps in the client's session: the id of the logged-in
    user, if any. *)
Definition Session : Type := option nat.

(** ** Library routines *)

Class Platform : Type := {
  (** Python's [float(text)]; [None] where it raises [ValueError]. *)
  py_float : string -> option float;
  (** The check behind WTForms' [Email()] validator. *)
  email_validator : string -> bool;
  (** [generate_password_hash(password, method='pbkdf2:sha256')], with the
      salt it draws made an argument. *)
  generate_password_hash : string -> string -> string;
  (** [check_password_hash(pwhash, password)]. *)
  check_password_hash : string -> string -> bool;
  (** How the store reads the text of a URL segment when it compares it with
      an integer key: the integer it denotes, if it denotes one. *)
  sql_integer : string -> option nat
}.

(** ** Requests *)

(** The methods the routes declare.  A [HEAD] request, which Flask accepts on
    every [GET] route, runs a view the way a [GET] does. *)
Inductive Method : Type := GET | POST.

Record Request : Type := mkRequest {
  method : Method;
  request_form : list (string * string);   (* [request.form], in order *)
  csrf_valid : bool;               (* the CSRF token of the form verifies *)
  salt : string                    (* randomness drawn while serving *)
}.

(** [request.form.get(key)]: the first value submitted under [key]. *)
Fixpoint form_get (key : string) (f : list (string * string)) : option string :=
  match f with
  | [] => None
  | (k, v) :: f' => if decide (k = key) then Some v else form_get key f'
  end.

(** Flask-WTF's [is_submitted]: the request carries a form. *)
Definition is_submitted (req : Request) : bool :=
  match method req with POST => true | GET => false end.

(** ** Responses *)

Inductive Endpoint : Type := ep_login | ep_home.

Inductive Template : Type :=
| register_html
| login_html
| index_html (books : list Book.t)
| add_html
| edit_html (book : Book.t).

Inductive Failure : Type :=
| MultipleResultsFound     (* raised by [scalar_one_or_none] *)
| MethodNotAllowed.        (* the route does not accept the method *)

Inductive Response : Type :=
| render_template (page : Template)
| redirect (target : Endpoint)
| failure (e : Failure).

Record Outcome : Type := mkOutcome {
  store : Store;
  session : Session;
  flashed : list string;
  response : Response
}.

(** ** Validators (WTForms) *)

(** The characters Python's [str.strip] removes, among code points below 256. *)
Definition is_space (c : ascii) : bool :=
  let n := nat_of_ascii c in
  (Nat.leb 9 n && Nat.leb n 13) || (Nat.leb 28 n && Nat.leb n 32)
  || Nat.eqb n 133 || Nat.eqb n 160.

(** [s.strip()] is empty. *)
Definition blank (s : string) : bool :=
  forallb is_space (list_ascii_of_string s).

(** [DataRequired] on a text field: the data, stripped, is not empty. *)
Definition DataRequired (s : string) : bool := negb (blank s).

(** [Length(min, max)]; [max = None] is the validator's default, no bound. *)
Definition Length (min : nat) (max : option nat) (s : string) : bool :=
  Nat.leb min (String.length s)
  && match max with Some m => Nat.leb (String.length s) m | None => true end.

(** [DataRequired] on a float field: the data is truthy, that is, not zero. *)
Definition DataRequired_float (x : float) : bool := negb (PrimFloat.eqb x 0%float).

(** [NumberRange(min, max)]. *)
Definition NumberRange (min max x : float) : bool :=
  negb (PrimFloat.is_nan x) && PrimFloat.leb min x && PrimFloat.leb x max.

(** A text field with its validators: the data when the field was submitted
    and every validator accepts it.  Every text field of the three forms
    lists [DataRequired] first, which also rejects a field not submitted. *)
Definition StringField (validators : list (string -> bool))
    (raw : option string) : option string :=
  match raw with
  | Some s => if forallb (fun v => v s) validators then Some s else None
  | None => None
  end.

(** A float field: the text is converted with [float]; a text that does not
    convert, or a field not submitted, leaves no data. *)
Definition FloatField `{Platform} (validators : list (float -> bool))
    (raw : option string) : option float :=
  match raw with
  | Some s =>
      match py_float s with
      | Some x => if forallb (fun v => v x) validators then Some x else None
      | None => None
      end
  | None => None
  end.

(** ** Forms

    [validate_on_submit] of a form gives the data of its fields when the
    request is a submission, its CSRF token verifies and every field
    validates, and [None] otherwise. *)

(** [class LoginForm(FlaskForm)] *)
Module LoginForm.
Record t : Type := mk { email : string; password : string }.

Definition validate_on_submit `{Platform} (req : Request) : option t :=
  if is_submitted req && csrf_valid req then
    match StringField [DataRequired; email_validator] (form_get "email" (request_form req)),
          StringField [DataRequired] (form_get "password" (request_form req)) with
    | Some e, Some p => Some (mk e p)
    | _, _ => None
    end
  else None.
End LoginForm.

(** [class RegisterForm(FlaskForm)] *)
Module RegisterForm.
Record t : Type := mk { name : string; email : string; password : string }.

Definition validate_on_submit `{Platform} (req : Request) : option t :=
  if is_submitted req && csrf_valid req then
    match StringField [DataRequired; Length 2 (Some 100)] (form_get "name" (request_form req)),
          StringField [DataRequired; email_validator] (form_get "email" (request_form req)),
          StringField [DataRequired; Length 6 None] (form_get "password" (request_form req)) with
    | Some n, Some e, Some p => Some (mk n e p)
    | _, _, _ => None
    end
  else None.
End RegisterForm.

(** [class BookForm(FlaskForm)] *)
Module BookForm.
Record t : Type := mk { name : string; author : string; rating : float }.

Definition validate_on_submit `{Platform} (req : Request) : option t :=
  if is_submitted req && csrf_valid req then
    match StringField [DataRequired] (form_get "name" (request_form req)),
          StringField [DataRequired] (form_get "author" (request_form req)),
          FloatField [DataRequired_float; NumberRange 0 10] (form_get "rating" (request_form req)) with
    | Some n, Some a, Some r => Some (mk n a r)
    | _, _, _ => None
    end
  else None.
End BookForm.

(** ** Queries (SQLAlchemy) *)

(** [.scalar()]: the first row of the result, or [None]. *)
Definition scalar {A : Type} (rows : list A) : option A := head rows.

(** [.scalar_one_or_none()]: the row of a result of one row, [None] for an
    empty result; it raises [MultipleResultsFound] on two rows or more. *)
Definition scalar_one_or_none {A : Type} (rows : list A) : Failure + option A :=
  match rows with
  | [] => inr None
  | [x] => inr (Some x)
  | _ :: _ :: _ => inl MultipleResultsFound
  end.

(** The key the store gives a row inserted without one: one more than the
    largest key of the table. *)
Definition next_id (ids : list nat) : nat := S (list_max ids).

(** [db.session.add(new_user); db.session.commit()] *)
Definition add_user (u : User.t) (st : Store) : Store :=
  {| users := users st ++ [u]; books := books st |}.

(** [db.session.add(new_book); db.session.commit()] *)
Definition add_book (b : Book.t) (st : Store) : Store :=
  {| users := users st; books := books st ++ [b] |}.

(** What the [Float] column of the store gives back for a float written to
    it: the store keeps no sign of a zero, so a negative zero is read back
    as zero; every other float of the range is read back as it was written. *)
Definition stored_float (x : float) : float :=
  if PrimFloat.eqb x 0 then 0%float else x.

(** [book.rating = r; db.session.commit()]: the rating column of the row
    whose key is that of [book] is written. *)
Definition update_rating (book : Book.t) (r : float) (st : Store) : Store :=
  {| users := users st;
     books := (fun b => if decide (Book.id b = Book.id book)
                        then Book.set_rating (stored_float r) b else b)
              <$> books st |}.

(** [db.session.delete(book); db.session.commit()]: the row whose key is that
    of [book] is removed. *)
Definition delete_book (book : Book.t) (st : Store) : Store :=
  {| users := users st;
     books := filter (fun b => Book.id b <> Book.id book) (books st) |}.

(** ** Sessions (Flask-Login) *)

(** [load_user(user_id)] *)
Definition load_user (st : Store) (user_id : nat) : option User.t :=
  scalar (filter (fun u => User.id u = user_id) (users st)).

(** [current_user], when it is an authenticated user: the user the session's
    id loads.  [None] stands for the anonymous user. *)
Definition current_user (st : Store) (s : Session) : option User.t :=
  s ≫= load_user st.

(** [login_user(user)] *)
Definition login_user (u : User.t) : Session := Some (User.id u).

(** [logout_user()] *)
Definition logout_user : Session := None.

(** A view function: the current user is an explicit argument of the views
    behind [@login_required]. *)
Definition View : Type := Store -> Session -> Request -> Outcome.

(** [@login_required]: an anonymous request is answered by
    [login_manager.unauthorized()], which flashes the login message and
    redirects to [login_view]. *)
Definition login_required (view : User.t -> View) : View :=
  fun st s req =>
    match current_user st s with
    | Some u => view u st s req
    | None =>
        mkOutcome st s ["Please log in to access this page."] (redirect ep_login)
    end.

(** ** Views *)

(** [register()] *)
Definition register `{Platform} : View := fun st s req =>
  match RegisterForm.validate_on_submit req with
  | Some form =>
      let existing_user :=
        scalar (filter (fun u => User.email u = RegisterForm.email form) (users st)) in
      match existing_user with
      | Some _ =>
          mkOutcome st s ["Email already registered. Please login."] (redirect ep_login)
      | None =>
          let new_user :=
            {| User.id := next_id (User.id <$> users st);
               User.email := RegisterForm.email form;
               User.password :=
                 generate_password_hash (RegisterForm.password form) (salt req);
               User.name := RegisterForm.name form |} in
          mkOutcome (add_user new_user st) (login_user new_user) [] (redirect ep_home)
      end
  | None => mkOutcome st s [] (render_template register_html)
  end.

(** [login()] *)
Definition login `{Platform} : View := fun st s req =>
  match LoginForm.validate_on_submit req with
  | Some form =>
      let user :=
        scalar (filter (fun u => User.email u = LoginForm.email form) (users st)) in
      match user with
      | Some u =>
          if check_password_hash (User.password u) (LoginForm.password form)
          then mkOutcome st (login_user u) [] (redirect ep_home)
          else mkOutcome st s ["Invalid email or password"] (redirect ep_login)
      | None => mkOutcome st s ["Invalid email or password"] (redirect ep_login)
      end
  | None => mkOutcome st s [] (render_template login_html)
  end.

(** [logout()] *)
Definition logout : View :=
  login_required (fun _ st _ _ => mkOutcome st logout_user [] (redirect ep_login)).

(** [home()] *)
Definition home : View := fun st s _ =>
  let all_books :=
    match current_user st s with
    | Some u => filter (fun b => Book.user_id b = User.id u) (books st)
    | None => []
    end in
  mkOutcome st s [] (render_template (index_html all_books)).

(** [add()] *)
Definition add `{Platform} : View :=
  login_required (fun u st s req =>
    match BookForm.validate_on_submit req with
    | Some form =>
        match scalar_one_or_none
                (filter (fun b => Book.title b = BookForm.name form) (books st)) with
        | inl e => mkOutcome st s [] (failure e)
        | inr None =>
            let new_book :=
              {| Book.id := next_id (Book.id <$> books st);
                 Book.title := BookForm.name form;
                 Book.author := BookForm.author form;
                 Book.rating := BookForm.rating form;
                 Book.user_id := User.id u |} in
            mkOutcome (add_book new_book st) s [] (redirect ep_home)
        | inr (Some _) => mkOutcome st s [] (redirect ep_home)
        end
    | None => mkOutcome st s [] (render_template add_html)
    end).

(** The rows [db.select(Book).where(Book.id == book_id,
    Book.user_id == current_user.id)] selects. *)
Definition own_book `{Platform} (book_id : string) (u : User.t) (st : Store)
    : list Book.t :=
  filter (fun b => sql_integer book_id = Some (Book.id b)
                   /\ Book.user_id b = User.id u) (books st).

(** [0 <= new_rating <= 10] *)
Definition in_range (x : float) : bool :=
  PrimFloat.leb 0 x && PrimFloat.leb x 10.

(** [edit(book_id)] *)
Definition edit `{Platform} (book_id : string) : View :=
  login_required (fun u st s req =>
    match scalar (own_book book_id u st) with
    | None => mkOutcome st s ["Book not found or access denied"] (redirect ep_home)
    | Some book_to_update =>
        let form_page :=
          mkOutcome st s [] (render_template (edit_html book_to_update)) in
        match method req with
        | POST =>
            match form_get "rating" (request_form req) ≫= py_float with
            | Some new_rating =>
                if in_range new_rating
                then mkOutcome (update_rating book_to_update new_rating st) s []
                       (redirect ep_home)
                else form_page
            | None => form_page          (* [ValueError], [TypeError]: pass *)
            end
        | GET => form_page
        end
    end).

(** The rating [edit] takes from a request: the request is a submission whose
    rating converts to a float of the range. *)
Definition edit_accepts `{Platform} (req : Request) (r : float) : Prop :=
  method req = POST
  /\ exists text, form_get "rating" (request_form req) = Some text
       /\ py_float text = Some r /\ in_range r = true.

(** [delete(book_id)] *)
Definition delete `{Platform} (book_id : string) : View :=
  login_required (fun u st s _ =>
    match scalar (own_book book_id u st) with
    | None => mkOutcome st s ["Book not found or access denied"] (redirect ep_home)
    | Some book_to_delete =>
        mkOutcome (delete_book book_to_delete st) s [] (redirect ep_home)
    end).

(** ** Routes *)

Inductive Route : Type :=
| route_register
| route_login
| route_logout
| route_home
| route_add
| route_edit (book_id : string)
| route_delete (book_id : string).

(** [methods=...] of [@app.route]; a route declared without it takes [GET]. *)
Definition methods (r : Route) : list Method :=
  match r with
  | route_register | route_login | route_add | route_edit _ => [GET; POST]
  | route_logout | route_home => [GET]
  | route_delete _ => [POST]
  end.

Definition view_of `{Platform} (r : Route) : View :=
  match r with
  | route_register => register
  | route_login => login
  | route_logout => logout
  | route_home => home
  | route_add => add
  | route_edit book_id => edit book_id
  | route_delete book_id => delete book_id
  end.

#[global] Instance Method_eq_dec : EqDecision Method.
Proof. solve_decision. Defined.

(** One request served by the application ([app.dispatch_request]). *)
Definition dispatch_request `{Platform} (r : Route) : View := fun st s req =>
  if decide (method req ∈ methods r) then view_of r st s req
  else mkOutcome st s [] (failure MethodNotAllowed).

(** A client's call: its session, the route and the request. *)
Record Call : Type := mkCall {
  call_session : Session;
  call_route : Route;
  call_request : Request
}.

(** The store after a sequence of calls, made by any clients in any order. *)
Definition run `{Platform} (st : Store) (calls : list Call) : Store :=
  foldl (fun st c => store (dispatch_request (call_route c) st (call_session c) (call_request c)))
        st calls.

(** The constraints of the schema: primary keys and [unique=True]. *)
Record schema (st : Store) : Prop := mkSchema {
  user_pk : NoDup (User.id <$> users st);
  user_email_unique : NoDup (User.email <$> users st);
  book_pk : NoDup (Book.id <$> books st)
}.

Definition empty_store : Store := {| users := []; books := [] |}.

(** ** An executable platform

    [demo] instantiates the library routines on the texts the examples use.
    Its [float] reads an optional sign and at most 15 decimal digits around
    an optional point, where the quotient of the two exactly represented
    integers is the correctly rounded value that Python's [float] returns;
    it answers [None] on every other text.  Its hashing is a stand-in with
    the shape [method$salt$digest] of werkzeug's. *)

Definition digit (c : ascii) : option N :=
  let n := N_of_ascii c in
  if (48 <=? n)%N && (n <=? 57)%N then Some (n - 48)%N else None.

Fixpoint number (acc : N) (cs : list ascii) : option N :=
  match cs with
  | [] => Some acc
  | c :: cs' =>
      match digit c with
      | Some d => number (10 * acc + d)%N cs'
      | None => None
      end
  end.

(** The text before the first [sep], and the text after it if there is one. *)
Fixpoint split_at (sep : ascii) (cs : list ascii) : list ascii * option (list ascii) :=
  match cs with
  | [] => ([], None)
  | c :: cs' =>
      if decide (c = sep) then ([], Some cs')
      else let '(l, r) := split_at sep cs' in (c :: l, r)
  end.

Definition float_of_N (n : N) : float :=
  PrimFloat.of_uint63 (Uint63.of_Z (Z.of_N n)).

Definition unsigned_float (cs : list ascii) : option float :=
  let '(i, f) := split_at "." cs in
  let f := default [] f in
  if decide (0 < length (i ++ f) <= 15) then
    match number 0 (i ++ f) with
    | Some m => Some (float_of_N m / float_of_N (10 ^ N.of_nat (length f)))%float
    | None => None
    end
  else None.

Definition demo_float (s : string) : option float :=
  match list_ascii_of_string s with
  | "-"%char :: cs => PrimFloat.opp <$> unsigned_float cs
  | "+"%char :: cs => unsigned_float cs
  | cs => unsigned_float cs
  end.

Definition demo_email (s : string) : bool :=
  match split_at "@" (list_ascii_of_string s) with
  | (_ :: _, Some (_ :: _)) => true
  | _ => false
  end.

Definition demo_digest (password salt : string) : string :=
  string_of_list_ascii (rev (list_ascii_of_string (salt +:+ password))).

Definition demo_hash (password salt : string) : string :=
  "demo$" +:+ salt +:+ "$" +:+ demo_digest password salt.

Definition demo_check (pwhash password : string) : bool :=
  match split_at "$" (list_ascii_of_string pwhash) with
  | (m, Some rest) =>
      match split_at "$" rest with
      | (slt, Some d) =>
          bool_decide (string_of_list_ascii m = "demo")
          && bool_decide (string_of_list_ascii d
                          = demo_digest password (string_of_list_ascii slt))
      | _ => false
      end
  | _ => false
  end.

Definition demo_integer (s : string) : option nat :=
  match list_ascii_of_string s with
  | [] => None
  | cs => N.to_nat <$> number 0 cs
  end.

Definition demo : Platform := {|
  py_float := demo_float;
  email_validator := demo_email;
  generate_password_hash := demo_hash;
  check_password_hash := demo_check;
  sql_integer := demo_integer
|}.

(** Requests of the examples. *)
Definition post (fields : list (string * string)) : Request :=
  {| method := POST; request_form := fields; csrf_valid := true; salt := "NaCl" |}.

Definition get : Request :=
  {| method := GET; request_form := []; csrf_valid := false; salt := "" |}.

Definition register_post (n e p : string) : Request :=
  post [("name", n); ("email", e); ("password", p)].

Definition login_post (e p : string) : Request :=
  post [("email", e); ("password", p)].

Definition book_post (n a r : string) : Request :=
  post [("name", n); ("author", a); ("rating", r)].

Definition rating_post (r : string) : Request := post [("rating", r)].

(** Users A and B of the scenarios, and a store where each owns a book. *)
Definition user_A : User.t :=
  User.mk 1 "a@x.com" (demo_hash "secret1" "NaCl") "Ann".

Definition user_B : User.t :=
  User.mk 2 "b@x.com" (demo_hash "secret2" "NaCl") "Bob".

Definition dune : Book.t := Book.mk 1 "Dune" "Herbert" 9 1.

Definition emma : Book.t := Book.mk 2 "Emma" "Austen" 7 2.

Definition store_AB : Store := {| users := [user_A; user_B]; books := [dune; emma] |}.

(** Two rows titled "Dune", which the schema admits: [title] carries no
    uniqueness constraint. *)
Definition store_dunes : Store :=
  {| users := [user_A; user_B];
     books := [dune; Book.mk 2 "Dune" "Herbert" 8 2] |}.

(** * Properties *)

(** ** Queries *)

Section Queries.
Context {A : Type} (P : A -> Prop) `{!forall x, Decision (P x)}.

Lemma scalar_filter_None (rows : list A) :
  scalar (filter P rows) = None <-> forall x, x ∈ rows -> ~ P x.
Proof.
  unfold scalar. rewrite head_None. split.
  - intros Hnil x Hx HP. eapply filter_nil_not_elem_of; eauto.
  - intros Hall. induction rows as [|x rows IH]; [done|].
    rewrite filter_cons_False.
    + apply IH. intros y Hy. apply Hall. by right.
    + apply Hall. by left.
Qed.

Lemma scalar_filter_Some (rows : list A) (x : A) :
  scalar (filter P rows) = Some x -> x ∈ rows /\ P x.
Proof.
  unfold scalar. intros Hhd. apply head_Some_elem_of in Hhd.
  apply list_elem_of_filter in Hhd. tauto.
Qed.

Lemma scalar_filter_is_Some (rows : list A) (x : A) :
  x ∈ rows -> P x -> is_Some (scalar (filter P rows)).
Proof.
  intros Hx HP. destruct (scalar (filter P rows)) eqn:E; [by eexists|].
  exfalso. eapply scalar_filter_None; eauto.
Qed.

(** A key selects at most one row of a table without duplicate keys. *)
Lemma filter_key_unique {K : Type} (key : A -> K) (rows : list A) (x y : A) :
  NoDup (key <$> rows) -> x ∈ rows -> y ∈ rows -> key x = key y -> x = y.
Proof.
  induction rows as [|z rows IH]; intros Hnd Hx Hy Hk; [by inversion Hx|].
  rewrite fmap_cons in Hnd. apply NoDup_cons in Hnd as [Hz Hnd].
  apply elem_of_cons in Hx as [->|Hx]; apply elem_of_cons in Hy as [->|Hy];
    try done; try by apply IH.
  - exfalso. apply Hz. rewrite Hk. by apply list_elem_of_fmap_2.
  - exfalso. apply Hz. rewrite <- Hk. by apply list_elem_of_fmap_2.
Qed.
End Queries.

Lemma list_max_ge (ids : list nat) (i : nat) : i ∈ ids -> i <= list_max ids.
Proof.
  induction ids as [|j ids IH]; intros Hi; [by inversion Hi|].
  simpl. apply elem_of_cons in Hi as [->|Hi]; [lia|]. specialize (IH Hi). lia.
Qed.

(** The key given to a new row is not in the table. *)
Lemma next_id_fresh (ids : list nat) : next_id ids ∉ ids.
Proof. intros Hin. apply list_max_ge in Hin. unfold next_id in Hin. lia. Qed.

(** ** The login gate *)

Lemma login_required_anonymous (view : User.t -> View) st s req :
  current_user st s = None ->
  login_required view st s req
  = mkOutcome st s ["Please log in to access this page."] (redirect ep_login).
Proof. intros Hcu. unfold login_required. by rewrite Hcu. Qed.

Lemma login_required_user (view : User.t -> View) st s req u :
  current_user st s = Some u -> login_required view st s req = view u st s req.
Proof. intros Hcu. unfold login_required. by rewrite Hcu. Qed.

(** The session's user is a row of the user table. *)
Lemma current_user_elem st s u : current_user st s = Some u -> u ∈ users st.
Proof.
  destruct s as [i|]; [|done]. simpl. unfold load_user.
  intros Hu. by apply scalar_filter_Some in Hu as [? _].
Qed.

Section Registry.
Context `{Platform}.

(** No row of the query behind [edit] and [delete] when no book has the
    given id and the current user as owner. *)
Lemma own_book_None book_id u st :
  scalar (own_book book_id u st) = None
  <-> forall b, b ∈ books st -> sql_integer book_id = Some (Book.id b) ->
        Book.user_id b <> User.id u.
Proof.
  unfold own_book. rewrite scalar_filter_None. split.
  - intros Hno b Hb Hid Hown. by apply (Hno b Hb).
  - intros Hno b Hb [Hid Hown]. by apply (Hno b Hb).
Qed.

(** C1. An [edit] or [delete] of a book id under which the current user owns
    no book, whether no book has that id or another user owns it, flashes
    the one message 'Book not found or access denied', redirects home and
    leaves the store and the session as they were. *)
Theorem edit_delete_not_found_or_forbidden st s u book_id req :
  current_user st s = Some u ->
  (forall b, b ∈ books st -> sql_integer book_id = Some (Book.id b) ->
     Book.user_id b <> User.id u) ->
  let denied :=
    mkOutcome st s ["Book not found or access denied"] (redirect ep_home) in
  edit book_id st s req = denied /\ delete book_id st s req = denied.
Proof.
  intros Hcu Hno denied. apply own_book_None in Hno.
  unfold edit, delete. rewrite !(login_required_user _ _ _ _ u Hcu).
  by rewrite Hno.
Qed.

(** C2. Without an authenticated session [home] lists no book, and [add],
    [edit] and [delete] redirect to the login page; none of them changes the
    store or the session. *)
Theorem anonymous_book_registry st s book_id req :
  current_user st s = None ->
  let to_login :=
    mkOutcome st s ["Please log in to access this page."] (redirect ep_login) in
  home st s req = mkOutcome st s [] (render_template (index_html []))
  /\ add st s req = to_login
  /\ edit book_id st s req = to_login
  /\ delete book_id st s req = to_login.
Proof.
  intros Hcu to_login. unfold home, add, edit, delete.
  rewrite !login_required_anonymous by done. by rewrite Hcu.
Qed.

End Registry.

(** ** Ratings *)

Lemma SFcompare_refl (f : spec_float) :
  f <> S754_nan -> SFcompare f f = Some Eq.
Proof.
  destruct f as [sg|sg| |sg m e]; intros Hnan; try done.
  - by destruct sg.
  - simpl. rewrite Z.compare_refl, Pos.compare_cont_refl. by destruct sg.
Qed.

(** A float that compares with another is not a NaN. *)
Lemma leb_not_nan (x y : float) : PrimFloat.leb x y = true -> PrimFloat.is_nan y = false.
Proof.
  rewrite FloatAxioms.leb_spec. unfold PrimFloat.is_nan.
  rewrite FloatAxioms.eqb_spec. unfold SFleb, SFeqb.
  intros Hle. rewrite SFcompare_refl; [done|].
  intros Hnan. rewrite Hnan in Hle. by destruct (Prim2SF x).
Qed.

(** The range check of [BookForm] and the one of [edit] are the same check. *)
Lemma NumberRange_in_range (x : float) : NumberRange 0 10 x = in_range x.
Proof.
  unfold NumberRange, in_range.
  destruct (PrimFloat.leb 0 x) eqn:Hle.
  - by rewrite (leb_not_nan _ _ Hle).
  - by rewrite andb_false_r.
Qed.

(** The store gives back every float but a zero as it was written. *)
Lemma stored_float_nonzero (x : float) :
  PrimFloat.eqb x 0 = false -> stored_float x = x.
Proof. intros Hz. unfold stored_float. by rewrite Hz. Qed.

(** What the store gives back for a rating of the range is in the range. *)
Lemma stored_float_in_range (x : float) :
  in_range x = true -> in_range (stored_float x) = true.
Proof. intros Hx. unfold stored_float. by destruct (PrimFloat.eqb x 0). Qed.

Section Ratings.
Context `{Platform}.

(** The rating field of [BookForm] accepts a text exactly when it converts
    to a float of the range that is not zero. *)
Lemma BookForm_rating_accepted (raw : option string) (x : float) :
  FloatField [DataRequired_float; NumberRange 0 10] raw = Some x
  <-> exists text, raw = Some text /\ py_float text = Some x
        /\ in_range x = true /\ PrimFloat.eqb x 0 = false.
Proof.
  unfold FloatField, DataRequired_float. split.
  - destruct raw as [text|]; [|done].
    destruct (py_float text) as [y|] eqn:Hy; [|done].
    simpl. rewrite andb_true_r, NumberRange_in_range.
    destruct (PrimFloat.eqb y 0) eqn:Hz; [done|]. simpl.
    destruct (in_range y) eqn:Hr; [|done].
    intros [= <-]. by exists text.
  - intros (text & -> & -> & Hr & Hz). simpl.
    by rewrite andb_true_r, NumberRange_in_range, Hr, Hz.
Qed.

(** A rating that converts to zero does not pass [BookForm]. *)
Lemma BookForm_rejects_zero (req : Request) (text : string) (x : float) :
  form_get "rating" (request_form req) = Some text ->
  py_float text = Some x -> PrimFloat.eqb x 0 = true ->
  BookForm.validate_on_submit req = None.
Proof.
  intros Hraw Hx Hz. unfold BookForm.validate_on_submit.
  destruct (is_submitted req && csrf_valid req); [|done].
  destruct (FloatField _ _) as [y|] eqn:Hy.
  - apply BookForm_rating_accepted in Hy as (t & Ht & Hy & _ & Hnz). congruence.
  - by repeat case_match.
Qed.

(** [edit] of a book of the current user commits the rating exactly when it
    converts to a float of the range; any other request gets the edit page
    of the unchanged book and changes nothing. *)
Lemma edit_own_book st s u book_id req book :
  current_user st s = Some u ->
  scalar (own_book book_id u st) = Some book ->
  (forall r, edit_accepts req r ->
     edit book_id st s req
     = mkOutcome (update_rating book r st) s [] (redirect ep_home))
  /\ ((forall r, ~ edit_accepts req r) ->
     edit book_id st s req
     = mkOutcome st s [] (render_template (edit_html book))).
Proof.
  intros Hcu Hbook. unfold edit. rewrite (login_required_user _ _ _ _ u Hcu), Hbook.
  split.
  - intros r (-> & text & -> & Hr & Hin). simpl. by rewrite Hr, Hin.
  - intros Hno. destruct (method req) eqn:Hm; [done|].
    destruct (form_get "rating" (request_form req)) as [text|] eqn:Ht; [|done]. simpl.
    destruct (py_float text) as [r|] eqn:Hr; [|done].
    destruct (in_range r) eqn:Hin; [|done].
    exfalso. apply (Hno r). split; [done|]. by exists text.
Qed.

(** [add] answers a rating that converts to zero with the form again, and
    creates nothing. *)
Lemma add_rejects_zero st s u req text x :
  current_user st s = Some u ->
  form_get "rating" (request_form req) = Some text ->
  py_float text = Some x -> PrimFloat.eqb x 0 = true ->
  add st s req = mkOutcome st s [] (render_template add_html).
Proof.
  intros Hcu Hraw Hx Hz. unfold add.
  by rewrite (login_required_user _ _ _ _ u Hcu),
             (BookForm_rejects_zero req text x Hraw Hx Hz).
Qed.

End Ratings.

(** ** Rows and keys *)

Section Rows.
Context {A K : Type} (key : A -> K).

Lemma NoDup_key_split (l1 l2 : list A) (x : A) :
  NoDup (key <$> l1 ++ x :: l2) ->
  forall y, y ∈ l1 ++ l2 -> key y <> key x.
Proof.
  rewrite fmap_app, fmap_cons. intros Hnd y Hy Hk.
  apply NoDup_app in Hnd as (_ & Hl1 & Hnd). apply NoDup_cons in Hnd as [Hl2 _].
  apply elem_of_app in Hy as [Hy|Hy].
  - apply (Hl1 (key y)); [by apply list_elem_of_fmap_2|]. rewrite Hk. by left.
  - apply Hl2. rewrite <- Hk. by apply list_elem_of_fmap_2.
Qed.

Lemma fmap_fixed (f : A -> A) (l : list A) :
  (forall x, x ∈ l -> f x = x) -> f <$> l = l.
Proof.
  induction l as [|x l IH]; intros Hf; [done|].
  rewrite fmap_cons, Hf, IH; [done| |by left].
  intros y Hy. apply Hf. by right.
Qed.

Lemma filter_all (P : A -> Prop) `{!forall x, Decision (P x)} (l : list A) :
  (forall x, x ∈ l -> P x) -> filter P l = l.
Proof.
  induction l as [|x l IH]; intros HP; [done|].
  rewrite filter_cons_True, IH; [done| |by apply HP; left].
  intros y Hy. apply HP. by right.
Qed.

Lemma filter_none (P : A -> Prop) `{!forall x, Decision (P x)} (l : list A) :
  (forall x, x ∈ l -> ~ P x) -> filter P l = [].
Proof.
  intros HP. apply head_None. by apply scalar_filter_None.
Qed.
End Rows.

(** ** Books *)

Section Books.
Context `{Platform}.

(** Under the primary key, the query behind [edit] and [delete] selects the
    book of the given id that the user owns. *)
Lemma own_book_found book_id u st book :
  NoDup (Book.id <$> books st) ->
  book ∈ books st -> sql_integer book_id = Some (Book.id book) ->
  Book.user_id book = User.id u ->
  scalar (own_book book_id u st) = Some book.
Proof.
  intros Hpk Hin Hid Hown.
  destruct (scalar_filter_is_Some
              (fun b => sql_integer book_id = Some (Book.id b)
                        /\ Book.user_id b = User.id u) (books st) book)
    as [b Hb]; [done..|].
  unfold own_book. rewrite Hb. f_equal.
  apply scalar_filter_Some in Hb as (Hbin & Hbid & _).
  apply (filter_key_unique Book.id (books st)); [done..|congruence].
Qed.

Lemma update_rating_split st book r before after :
  NoDup (Book.id <$> books st) -> books st = before ++ book :: after ->
  update_rating book r st
  = {| users := users st;
       books := before ++ Book.set_rating (stored_float r) book :: after |}.
Proof.
  intros Hpk Hsplit. unfold update_rating. f_equal. rewrite Hsplit in *.
  pose proof (NoDup_key_split Book.id _ _ _ Hpk) as Hne.
  rewrite fmap_app, fmap_cons. rewrite decide_True by done.
  rewrite !fmap_fixed; [done|..]; intros b Hb; rewrite decide_False; try done;
    apply Hne, elem_of_app; auto.
Qed.

Lemma delete_book_split st book before after :
  NoDup (Book.id <$> books st) -> books st = before ++ book :: after ->
  delete_book book st = {| users := users st; books := before ++ after |}.
Proof.
  intros Hpk Hsplit. unfold delete_book. f_equal. rewrite Hsplit in *.
  pose proof (NoDup_key_split Book.id _ _ _ Hpk) as Hne.
  rewrite filter_app, filter_cons_False by (intros Hb; by apply Hb).
  rewrite !filter_all; [done|..]; intros b Hb; apply Hne, elem_of_app; auto.
Qed.

(** C9. On a book the current user owns, an accepted [edit] writes the new
    rating into that row and nothing else, and [delete] removes that row and
    nothing else: the rows before and after it, the other columns of the
    edited row, the user table and the session are as they were.  The
    rating the row holds afterwards is the submitted one as the store keeps
    it, [stored_float r]: [r] itself, but for a negative zero, kept as zero. *)
Theorem edit_delete_frame st s u book_id req book :
  NoDup (Book.id <$> books st) ->
  current_user st s = Some u ->
  book ∈ books st ->
  sql_integer book_id = Some (Book.id book) ->
  Book.user_id book = User.id u ->
  exists before after,
    books st = before ++ book :: after
    /\ (forall r, edit_accepts req r ->
          edit book_id st s req
          = mkOutcome
              {| users := users st;
                 books := before
                          ++ {| Book.id := Book.id book;
                                Book.title := Book.title book;
                                Book.author := Book.author book;
                                Book.rating := stored_float r;
                                Book.user_id := Book.user_id book |}
                          :: after |}
              s [] (redirect ep_home))
    /\ delete book_id st s req
       = mkOutcome {| users := users st; books := before ++ after |}
           s [] (redirect ep_home).
Proof.
  intros Hpk Hcu Hin Hid Hown.
  pose proof (own_book_found _ _ _ _ Hpk Hin Hid Hown) as Hq.
  destruct (list_elem_of_split _ _ Hin) as (before & after & Hsplit).
  exists before, after. split; [done|]. split.
  - intros r Hr.
    destruct (edit_own_book _ _ _ _ req _ Hcu Hq) as [Hedit _].
    rewrite (Hedit r Hr). f_equal. by apply update_rating_split.
  - unfold delete. rewrite (login_required_user _ _ _ _ u Hcu), Hq.
    f_equal. by apply delete_book_split.
Qed.

(** A valid [add] by a logged-in user, where the title lookup selects at most
    one row: it skips a title that a book has and creates a book under a
    title that none has. *)
Lemma add_at_most_one_title st s u req form :
  current_user st s = Some u ->
  BookForm.validate_on_submit req = Some form ->
  length (filter (fun b => Book.title b = BookForm.name form) (books st)) <= 1 ->
  ((exists b, b ∈ books st /\ Book.title b = BookForm.name form) ->
     add st s req = mkOutcome st s [] (redirect ep_home))
  /\ ((forall b, b ∈ books st -> Book.title b <> BookForm.name form) ->
        let new_book :=
          {| Book.id := next_id (Book.id <$> books st);
             Book.title := BookForm.name form;
             Book.author := BookForm.author form;
             Book.rating := BookForm.rating form;
             Book.user_id := User.id u |} in
        add st s req
        = mkOutcome {| users := users st; books := books st ++ [new_book] |}
            s [] (redirect ep_home)
        /\ (Book.id new_book ∉ Book.id <$> books st)).
Proof.
  intros Hcu Hform Hone. unfold add.
  rewrite (login_required_user _ _ _ _ u Hcu), Hform. split.
  - intros (b & Hb & Ht).
    destruct (filter _ (books st)) as [|b1 [|b2 rows]] eqn:Hrows; simpl in *.
    + exfalso. eapply (filter_nil_not_elem_of _ (books st) b); eauto.
    + done.
    + lia.
  - intros Hnone. cbv zeta. split; [|apply next_id_fresh].
    by rewrite (filter_none _ _ Hnone).
Qed.

End Books.

(** ** Forms *)

Lemma StringField_Some validators raw s :
  StringField validators raw = Some s
  <-> raw = Some s /\ forallb (fun v => v s) validators = true.
Proof.
  unfold StringField. destruct raw as [t|].
  - destruct (forallb _ validators) eqn:Hv.
    + split; [by intros [= <-]|by intros [[= <-] _]].
    + split; [done|]. intros [[= <-] Hs]. congruence.
  - split; [done|]. by intros [? _].
Qed.

Section Forms.
Context `{Platform}.

(** What a validated registration form was made from. *)
Lemma RegisterForm_valid req form :
  RegisterForm.validate_on_submit req = Some form ->
  method req = POST /\ csrf_valid req = true
  /\ form_get "name" (request_form req) = Some (RegisterForm.name form)
  /\ form_get "email" (request_form req) = Some (RegisterForm.email form)
  /\ form_get "password" (request_form req) = Some (RegisterForm.password form)
  /\ Length 2 (Some 100) (RegisterForm.name form) = true
  /\ Length 6 None (RegisterForm.password form) = true.
Proof.
  unfold RegisterForm.validate_on_submit, is_submitted.
  destruct (method req); [done|]. destruct (csrf_valid req); [|done]. simpl.
  destruct (StringField _ (form_get "name" _)) as [n|] eqn:Hn; [|done].
  destruct (StringField _ (form_get "email" _)) as [e|] eqn:He; [|done].
  destruct (StringField _ (form_get "password" _)) as [p|] eqn:Hp; [|done].
  intros [= <-]. simpl.
  apply StringField_Some in Hn as [-> Hn], He as [-> _], Hp as [-> Hp].
  simpl in Hn, Hp. rewrite andb_true_r in Hn, Hp.
  apply andb_prop in Hn as [_ Hn], Hp as [_ Hp]. done.
Qed.

Lemma LoginForm_valid req form :
  LoginForm.validate_on_submit req = Some form ->
  method req = POST /\ csrf_valid req = true
  /\ form_get "email" (request_form req) = Some (LoginForm.email form)
  /\ form_get "password" (request_form req) = Some (LoginForm.password form).
Proof.
  unfold LoginForm.validate_on_submit, is_submitted.
  destruct (method req); [done|]. destruct (csrf_valid req); [|done]. simpl.
  destruct (StringField _ (form_get "email" _)) as [e|] eqn:He; [|done].
  destruct (StringField _ (form_get "password" _)) as [p|] eqn:Hp; [|done].
  intros [= <-]. simpl.
  by apply StringField_Some in He as [-> _], Hp as [-> _].
Qed.

End Forms.

(** ** Users *)

Section Accounts.
Context `{Platform}.

(** A user appended under a fresh id is the one its id loads. *)
Lemma load_new_user st new_user :
  User.id new_user ∉ (User.id <$> users st) ->
  current_user (add_user new_user st) (login_user new_user) = Some new_user.
Proof.
  intros Hfresh. unfold current_user, login_user, load_user, add_user. simpl.
  rewrite filter_app, filter_none.
  - by rewrite filter_cons_True.
  - intros u Hu Hid. apply Hfresh. rewrite <- Hid. by apply list_elem_of_fmap_2.
Qed.

(** C5. A registration under an e-mail that a user already has creates no
    user and leaves the session as it was and, when the form validates,
    flashes a notice and redirects to the login page.  A valid registration
    under an e-mail no user has appends one user, with a fresh id and the
    hash of the submitted password, logs that user in and redirects home. *)
Theorem register_duplicate_or_fresh st s req :
  (forall e, form_get "email" (request_form req) = Some e ->
     (exists u, u ∈ users st /\ User.email u = e) ->
     store (register st s req) = st
     /\ session (register st s req) = s
     /\ (is_Some (RegisterForm.validate_on_submit req) ->
           register st s req
           = mkOutcome st s ["Email already registered. Please login."]
               (redirect ep_login)))
  /\ (forall form, RegisterForm.validate_on_submit req = Some form ->
        (forall u, u ∈ users st -> User.email u <> RegisterForm.email form) ->
        let new_user :=
          {| User.id := next_id (User.id <$> users st);
             User.email := RegisterForm.email form;
             User.password :=
               generate_password_hash (RegisterForm.password form) (salt req);
             User.name := RegisterForm.name form |} in
        let st' := {| users := users st ++ [new_user]; books := books st |} in
        register st s req
        = mkOutcome st' (Some (User.id new_user)) [] (redirect ep_home)
        /\ (User.id new_user ∉ User.id <$> users st)
        /\ current_user st' (Some (User.id new_user)) = Some new_user).
Proof.
  split.
  - intros e He (u & Hu & Hue). unfold register.
    destruct (RegisterForm.validate_on_submit req) as [form|] eqn:Hform.
    + apply RegisterForm_valid in Hform as (_ & _ & _ & He' & _).
      assert (e = RegisterForm.email form) as -> by congruence.
      destruct (scalar_filter_is_Some
                  (fun u => User.email u = RegisterForm.email form) (users st) u)
        as [u' ->]; done.
    + done.
  - intros form Hform Hfresh. cbv zeta. unfold register. rewrite Hform.
    rewrite (proj2 (scalar_filter_None _ _) Hfresh).
    pose proof (next_id_fresh (User.id <$> users st)) as Hid.
    repeat split; try done.
    by apply (load_new_user st (User.mk _ _ _ _)).
Qed.

(** A login form that does not validate is rendered again; nothing changes. *)
Lemma login_form_rejected st s req :
  LoginForm.validate_on_submit req = None ->
  login st s req = mkOutcome st s [] (render_template login_html).
Proof. intros Hform. unfold login. by rewrite Hform. Qed.

(** C6. A validated login succeeds, establishing the session of the user
    and redirecting home, exactly when a user has the submitted e-mail and
    the submitted password verifies against that user's stored hash.  In
    every other case, in particular under a registered e-mail with a
    password that does not verify, it flashes 'Invalid email or password',
    redirects to the login page and leaves the session as it was.  The store
    is the same in both cases. *)
Theorem login_iff_credentials st s req form :
  NoDup (User.email <$> users st) ->
  LoginForm.validate_on_submit req = Some form ->
  let verified u :=
    u ∈ users st /\ User.email u = LoginForm.email form
    /\ check_password_hash (User.password u) (LoginForm.password form) = true in
  let refused :=
    mkOutcome st s ["Invalid email or password"] (redirect ep_login) in
  (response (login st s req) = redirect ep_home <-> exists u, verified u)
  /\ (forall u, verified u ->
        login st s req = mkOutcome st (Some (User.id u)) [] (redirect ep_home))
  /\ ((forall u, ~ verified u) -> login st s req = refused)
  /\ (forall u, u ∈ users st -> User.email u = LoginForm.email form ->
        check_password_hash (User.password u) (LoginForm.password form) = false ->
        login st s req = refused).
Proof.
  intros Hunique Hform verified refused.
  assert (Hrow : forall u, u ∈ users st -> User.email u = LoginForm.email form ->
            scalar (filter (fun u => User.email u = LoginForm.email form) (users st))
            = Some u).
  { intros u Hu He.
    destruct (scalar_filter_is_Some
                (fun u => User.email u = LoginForm.email form) (users st) u)
      as [u' Hu']; [done..|].
    rewrite Hu'. f_equal. apply scalar_filter_Some in Hu' as [Hin' He'].
    apply (filter_key_unique User.email (users st)); [done..|congruence]. }
  assert (Hyes : forall u, verified u ->
            login st s req = mkOutcome st (Some (User.id u)) [] (redirect ep_home)).
  { intros u (Hu & He & Hpw). unfold login.
    by rewrite Hform, (Hrow u Hu He), Hpw. }
  assert (Hno : (forall u, ~ verified u) -> login st s req = refused).
  { intros Hnone. unfold login. rewrite Hform.
    destruct (scalar _) as [u|] eqn:Hq; [|done].
    destruct (check_password_hash _ _) eqn:Hpw; [|done].
    exfalso. apply scalar_filter_Some in Hq as [Hu He]. by apply (Hnone u). }
  repeat split; try done.
  - intros Hhome. unfold login in Hhome. rewrite Hform in Hhome.
    destruct (scalar _) as [u|] eqn:Hq; [|done].
    destruct (check_password_hash _ _) eqn:Hpw; [|done].
    apply scalar_filter_Some in Hq as [Hu He]. by exists u.
  - intros [u Hu]. by rewrite (Hyes u Hu).
  - intros u Hu He Hpw. unfold login. by rewrite Hform, (Hrow u Hu He), Hpw.
Qed.

(** C10. [RegisterForm] asks for a password of at least 6 characters and a
    name of 2 to 100 characters: a submission whose password or name is
    outside these bounds gets the registration page again, creates no user
    and leaves the session as it was; the fields of a validated form are
    within them. *)
Theorem register_form_constraints st s req :
  let again := mkOutcome st s [] (render_template register_html) in
  (forall p, form_get "password" (request_form req) = Some p ->
     String.length p < 6 -> register st s req = again)
  /\ (forall n, form_get "name" (request_form req) = Some n ->
        String.length n < 2 \/ 100 < String.length n ->
        register st s req = again)
  /\ (forall form, RegisterForm.validate_on_submit req = Some form ->
        6 <= String.length (RegisterForm.password form)
        /\ 2 <= String.length (RegisterForm.name form) <= 100).
Proof.
  assert (Hbounds : forall form, RegisterForm.validate_on_submit req = Some form ->
            6 <= String.length (RegisterForm.password form)
            /\ 2 <= String.length (RegisterForm.name form) <= 100).
  { intros form Hform.
    apply RegisterForm_valid in Hform as (_ & _ & _ & _ & _ & Hn & Hp).
    unfold Length in Hn, Hp. rewrite andb_true_r in Hp.
    apply andb_prop in Hn as [Hn1 Hn2].
    apply Nat.leb_le in Hn1, Hn2, Hp. lia. }
  cbv zeta. repeat split; try (by apply Hbounds).
  - intros p Hp Hlen. unfold register.
    destruct (RegisterForm.validate_on_submit req) as [form|] eqn:Hform; [|done].
    exfalso. destruct (Hbounds form eq_refl) as [Hpw _].
    apply RegisterForm_valid in Hform as (_ & _ & _ & _ & Hp' & _).
    assert (p = RegisterForm.password form) as -> by congruence. lia.
  - intros n Hn Hlen. unfold register.
    destruct (RegisterForm.validate_on_submit req) as [form|] eqn:Hform; [|done].
    exfalso. destruct (Hbounds form eq_refl) as [_ Hnm].
    apply RegisterForm_valid in Hform as (_ & _ & Hn' & _).
    assert (n = RegisterForm.name form) as -> by congruence. lia.
Qed.

End Accounts.

(** ** What a request writes *)

Section Footprint.
Context `{Platform}.

(** The user table after a request: unchanged, or extended by the user a
    valid registration under a new e-mail creates. *)
Lemma dispatch_request_users r st s req :
  users (store (dispatch_request r st s req)) = users st
  \/ exists form,
       r = route_register
       /\ RegisterForm.validate_on_submit req = Some form
       /\ (forall u, u ∈ users st -> User.email u <> RegisterForm.email form)
       /\ users (store (dispatch_request r st s req))
          = users st
            ++ [ {| User.id := next_id (User.id <$> users st);
                    User.email := RegisterForm.email form;
                    User.password :=
                      generate_password_hash (RegisterForm.password form) (salt req);
                    User.name := RegisterForm.name form |} ].
Proof.
  unfold dispatch_request. case_decide; [|by left].
  destruct r; simpl.
  - unfold register.
    destruct (RegisterForm.validate_on_submit req) as [form|] eqn:Hform; [|by left].
    destruct (scalar _) as [u|] eqn:Hq; [by left|].
    right. exists form. repeat split; try done.
    exact (proj1 (scalar_filter_None _ _) Hq).
  - left. unfold login. by repeat case_match.
  - left. unfold logout, login_required. by case_match.
  - by left.
  - left. unfold add, login_required. by repeat case_match.
  - left. unfold edit, login_required. by repeat case_match.
  - left. unfold delete, login_required. by repeat case_match.
Qed.

(** The book table after a request: unchanged, extended by a book whose
    title no book has, or with the rating of a row written or a row removed. *)
Lemma dispatch_request_books r st s req :
  books (store (dispatch_request r st s req)) = books st
  \/ (exists new_book,
        (forall b, b ∈ books st -> Book.title b <> Book.title new_book)
        /\ Book.id new_book = next_id (Book.id <$> books st)
        /\ books (store (dispatch_request r st s req)) = books st ++ [new_book])
  \/ (exists book x,
        books (store (dispatch_request r st s req))
        = books (update_rating book x st))
  \/ (exists book,
        books (store (dispatch_request r st s req))
        = books (delete_book book st)).
Proof.
  unfold dispatch_request. case_decide; [|by left].
  destruct r; simpl.
  - left. unfold register. by repeat case_match.
  - left. unfold login. by repeat case_match.
  - left. unfold logout, login_required. by case_match.
  - by left.
  - unfold add, login_required.
    destruct (current_user st s) as [u|]; [|by left].
    destruct (BookForm.validate_on_submit req) as [form|]; [|by left].
    destruct (filter _ (books st)) as [|b1 [|b2 rows]] eqn:Hrows; simpl;
      [|by left..].
    right; left. eexists. repeat split; [|reflexivity]. simpl.
    intros b Hb Ht. by eapply (filter_nil_not_elem_of _ (books st) b).
  - unfold edit, login_required.
    destruct (current_user st s) as [u|]; [|by left].
    destruct (scalar _) as [book|]; [|by left].
    destruct (method req); [by left|].
    destruct (_ ≫= _) as [x|]; [|by left].
    destruct (in_range x); [|by left].
    right; right; left. by exists book, x.
  - unfold delete, login_required.
    destruct (current_user st s) as [u|]; [|by left].
    destruct (scalar _) as [book|]; [|by left].
    right; right; right. by exists book.
Qed.

(** A property of the store that every request preserves holds after any
    sequence of calls. *)
Lemma run_invariant (I : Store -> Prop) :
  (forall r st s req, I st -> I (store (dispatch_request r st s req))) ->
  forall calls st, I st -> I (run st calls).
Proof.
  intros Hstep calls. induction calls as [|c calls IH]; intros st Hst; [done|].
  apply IH, Hstep, Hst.
Qed.

Lemma NoDup_fmap_filter {A K : Type} (key : A -> K) (P : A -> Prop)
    `{!forall x, Decision (P x)} (rows : list A) :
  NoDup (key <$> rows) -> NoDup (key <$> filter P rows).
Proof.
  induction rows as [|x rows IH]; [done|].
  rewrite fmap_cons, NoDup_cons. intros [Hx Hnd]. rewrite filter_cons.
  case_decide; [|by apply IH].
  rewrite fmap_cons, NoDup_cons. split; [|by apply IH].
  intros Hin. apply Hx. apply list_elem_of_fmap in Hin as (y & -> & Hy).
  apply list_elem_of_filter in Hy as [_ Hy]. by apply list_elem_of_fmap_2.
Qed.

Lemma NoDup_snoc_fresh {A K : Type} (key : A -> K) (rows : list A) (x : A) :
  NoDup (key <$> rows) -> (forall y, y ∈ rows -> key y <> key x) ->
  NoDup (key <$> rows ++ [x]).
Proof.
  intros Hnd Hfresh. rewrite fmap_app. apply NoDup_app. repeat split; [done| |].
  - intros k Hk Hkx. apply list_elem_of_fmap in Hk as (y & -> & Hy).
    apply list_elem_of_singleton in Hkx. by apply (Hfresh y).
  - apply NoDup_singleton.
Qed.

(** Titles stay pairwise distinct: [add] is the only view that creates a
    book, and it creates none under a title in the store. *)
Lemma run_titles_unique st calls :
  NoDup (Book.title <$> books st) -> NoDup (Book.title <$> books (run st calls)).
Proof.
  revert st. apply (run_invariant (fun st => NoDup (Book.title <$> books st))).
  intros r st s req Hnd.
  destruct (dispatch_request_books r st s req)
    as [-> | [(b & Hfresh & _ & ->) | [(b & x & ->) | (b & ->)]]].
  - done.
  - by apply NoDup_snoc_fresh.
  - simpl. rewrite <- list_fmap_compose.
    erewrite list_fmap_ext; [exact Hnd|]. intros ? b' _. simpl. by case_decide.
  - simpl. by apply NoDup_fmap_filter.
Qed.

(** The constraints of the schema hold after any sequence of calls. *)
Lemma run_schema st calls : schema st -> schema (run st calls).
Proof.
  revert st. apply (run_invariant schema). intros r st s req [Hu He Hb].
  split.
  - destruct (dispatch_request_users r st s req) as [-> | (f & _ & _ & _ & ->)];
      [done|].
    apply NoDup_snoc_fresh; [done|]. simpl. intros u Hu' Hid.
    apply (next_id_fresh (User.id <$> users st)). rewrite <- Hid.
    by apply list_elem_of_fmap_2.
  - destruct (dispatch_request_users r st s req) as [-> | (f & _ & _ & Hf & ->)];
      [done|].
    by apply NoDup_snoc_fresh.
  - destruct (dispatch_request_books r st s req)
      as [-> | [(b & _ & Hid & ->) | [(b & x & ->) | (b & ->)]]].
    + done.
    + apply NoDup_snoc_fresh; [done|]. intros b' Hb' Hid'.
      apply (next_id_fresh (Book.id <$> books st)). rewrite <- Hid, <- Hid'.
      by apply list_elem_of_fmap_2.
    + simpl. rewrite <- list_fmap_compose.
      erewrite list_fmap_ext; [exact Hb|]. intros ? b' _. simpl. by case_decide.
    + simpl. by apply NoDup_fmap_filter.
Qed.

(** C7. From a store in which no two users share an e-mail, no sequence of
    calls, of any routes by any clients, leads to a store in which two users
    do; the users of the first store are still there, unchanged and in the
    same order, since rows of the user table are only ever appended. *)
Theorem email_unique_invariant st calls :
  NoDup (User.email <$> users st) ->
  NoDup (User.email <$> users (run st calls))
  /\ users st `prefix_of` users (run st calls).
Proof.
  intros Hnd.
  apply (run_invariant
           (fun st' => NoDup (User.email <$> users st')
                       /\ users st `prefix_of` users st')); [|done].
  intros r st' s req [Hnd' Hpre].
  destruct (dispatch_request_users r st' s req) as [-> | (f & _ & _ & Hf & ->)];
    [done|].
  split.
  - by apply NoDup_snoc_fresh.
  - by apply prefix_app_r.
Qed.

(** C8. Provided the hashing routine never returns the password it is given:
    a successful registration stores, as the password of the user it
    creates, the hash of the submitted password under the salt drawn, which
    is not the submitted password; a request either leaves the user table as
    it was or is such a registration; and after any sequence of calls every
    user that was not in the store before has a hash as password. *)
Theorem password_stored_hashed :
  (forall password slt, generate_password_hash password slt <> password) ->
  (forall st s req form,
     RegisterForm.validate_on_submit req = Some form ->
     (forall u, u ∈ users st -> User.email u <> RegisterForm.email form) ->
     exists new_user,
       users (store (register st s req)) = users st ++ [new_user]
       /\ User.password new_user
          = generate_password_hash (RegisterForm.password form) (salt req)
       /\ User.password new_user <> RegisterForm.password form)
  /\ (forall r st s req,
        users (store (dispatch_request r st s req)) = users st
        \/ exists form new_user,
             r = route_register
             /\ RegisterForm.validate_on_submit req = Some form
             /\ users (store (dispatch_request r st s req)) = users st ++ [new_user]
             /\ User.password new_user
                = generate_password_hash (RegisterForm.password form) (salt req)
             /\ User.password new_user <> RegisterForm.password form)
  /\ (forall st calls u,
        u ∈ users (run st calls) ->
        u ∈ users st
        \/ exists password slt,
             User.password u = generate_password_hash password slt
             /\ User.password u <> password).
Proof.
  intros Hhash. repeat split.
  - intros st s req form Hform Hfresh. unfold register. rewrite Hform.
    rewrite (proj2 (scalar_filter_None _ _) Hfresh). simpl.
    eexists. repeat split. simpl. apply Hhash.
  - intros r st s req.
    destruct (dispatch_request_users r st s req) as [-> | (f & -> & Hf & _ & ->)];
      [by left|].
    right. eexists f, _. repeat split; [done|]. simpl. apply Hhash.
  - intros st calls.
    apply (run_invariant
             (fun st' => forall u, u ∈ users st' -> u ∈ users st
                \/ exists password slt,
                     User.password u = generate_password_hash password slt
                     /\ User.password u <> password)).
    + intros r st' s req Hinv u.
      destruct (dispatch_request_users r st' s req) as [-> | (f & _ & _ & _ & ->)];
        [by apply Hinv|].
      intros Hu. apply elem_of_app in Hu as [Hu|Hu]; [by apply Hinv|].
      apply list_elem_of_singleton in Hu as ->. right.
      eexists _, _. split; [reflexivity|]. simpl. apply Hhash.
    + by left.
Qed.

End Footprint.

(** ** The executable platform: scenarios and instances *)

Ltac each_row H :=
  repeat (apply elem_of_cons in H as [->|H]); [..|by apply elem_of_nil in H].

Lemma append_length (a b : string) :
  String.length (a +:+ b) = String.length a + String.length b.
Proof. induction a as [|c a IH]; simpl; [done|]. by rewrite IH. Qed.

(** The stand-in hash is longer than the password it is given. *)
Lemma demo_hash_not_password password slt : demo_hash password slt <> password.
Proof.
  intros Heq. apply (f_equal String.length) in Heq.
  unfold demo_hash in Heq. rewrite !append_length in Heq. simpl in Heq.
  unfold demo_digest in Heq.
  assert (Hlen : forall l, String.length (string_of_list_ascii l) = length l).
  { induction l as [|c l IH]; simpl; [done|]. by rewrite IH. }
  assert (Hlen' : forall t, length (list_ascii_of_string t) = String.length t).
  { induction t as [|c t IH]; simpl; [done|]. by rewrite IH. }
  rewrite Hlen, length_rev, Hlen', append_length in Heq. lia.
Qed.

Lemma store_AB_schema : schema store_AB.
Proof.
  split; simpl; apply (bool_decide_unpack _); by vm_compute.
Qed.

(** Scenario: A registers and adds "Dune"; the book is in A's list, rated 9. *)
Example scenario_register_add_list :
  let r1 := @register demo empty_store None
              (register_post "Ann" "a@x.com" "secret1") in
  let r2 := @add demo (store r1) (session r1) (book_post "Dune" "Herbert" "9") in
  session r1 = Some 1
  /\ response (home (store r2) (session r2) get)
     = render_template (index_html [dune]).
Proof. by vm_compute. Qed.

(** Scenario: B's list does not show A's books. *)
Example scenario_lists_are_private :
  response (home store_AB (Some 2) get) = render_template (index_html [emma])
  /\ response (home {| users := [user_A; user_B]; books := [dune] |} (Some 2) get)
     = render_template (index_html []).
Proof. by vm_compute. Qed.

(** Scenario: "Dune" added a second time, by another user; no second row. *)
Example scenario_second_dune :
  @add demo store_AB (Some 2) (book_post "Dune" "F. Herbert" "5")
  = mkOutcome store_AB (Some 2) [] (redirect ep_home).
Proof. by vm_compute. Qed.

(** The ratings of the specification's examples, on [edit]: -1, 10.01 and
    "abc" are refused, 0 and 10 are taken. *)
Example scenario_edit_ratings :
  let refused := mkOutcome store_AB (Some 1) [] (render_template (edit_html dune)) in
  @edit demo "1" store_AB (Some 1) (rating_post "-1") = refused
  /\ @edit demo "1" store_AB (Some 1) (rating_post "10.01") = refused
  /\ @edit demo "1" store_AB (Some 1) (rating_post "abc") = refused
  /\ response (@edit demo "1" store_AB (Some 1) (rating_post "10")) = redirect ep_home
  /\ response (@edit demo "1" store_AB (Some 1) (rating_post "0")) = redirect ep_home.
Proof. by vm_compute. Qed.

(** The rating "-0" converts to the negative zero, which [edit] takes; the
    row then holds zero. *)
Example scenario_edit_negative_zero :
  @py_float demo "-0" = Some (-0)%float
  /\ @edit demo "1" store_AB (Some 1) (rating_post "-0")
     = mkOutcome
         {| users := [user_A; user_B];
            books := [Book.mk 1 "Dune" "Herbert" 0 1; emma] |}
         (Some 1) [] (redirect ep_home).
Proof. by vm_compute. Qed.

(** The bounds of [RegisterForm] are met by a name of 2 characters and a
    password of 6. *)
Example scenario_register_bounds :
  response (@register demo store_AB None (register_post "Al" "c@x.com" "secret"))
  = redirect ep_home.
Proof. by vm_compute. Qed.

(** C3. [add] refuses the rating 0, which lies in the range that its own
    validator names and which [edit] takes: the text "0" converts to the
    float 0, [in_range] holds of it, [add] answers with the form again and
    creates no book, and [edit] commits it. *)
Theorem add_rejects_rating_zero :
  @py_float demo "0" = Some 0%float
  /\ in_range 0 = true
  /\ NumberRange 0 10 0 = true
  /\ @add demo store_AB (Some 1) (book_post "Solaris" "Lem" "0")
     = mkOutcome store_AB (Some 1) [] (render_template add_html)
  /\ @edit demo "1" store_AB (Some 1) (rating_post "0")
     = mkOutcome
         {| users := [user_A; user_B];
            books := [Book.mk 1 "Dune" "Herbert" 0 1; emma] |}
         (Some 1) [] (redirect ep_home).
Proof. by vm_compute. Qed.

(** On a store seeded with two books of one title, which no sequence of calls
    produces (lemma [run_titles_unique]), the title lookup of [add] raises:
    the user is logged in, the form validates and a book titled "Dune"
    exists, yet the request is not redirected home. *)
Lemma add_duplicate_titles_raises :
  let req := book_post "Dune" "Herbert" "9" in
  current_user store_dunes (Some 1) = Some user_A
  /\ @BookForm.validate_on_submit demo req = Some (BookForm.mk "Dune" "Herbert" 9)
  /\ (exists b, b ∈ books store_dunes /\ Book.title b = "Dune")
  /\ @add demo store_dunes (Some 1) req
     <> mkOutcome store_dunes (Some 1) [] (redirect ep_home)
  /\ @add demo store_dunes (Some 1) req
     = mkOutcome store_dunes (Some 1) [] (failure MultipleResultsFound).
Proof.
  repeat split; try by vm_compute.
  exists dune. split; [by left|done].
Qed.

(** ** Instances of the theorems on the store of A and B *)

(** A asks for B's book, under an id that exists, and for a book under an id
    that does not exist: the same answer. *)
Lemma edit_delete_not_found_or_forbidden_witness :
  let denied :=
    mkOutcome store_AB (Some 1) ["Book not found or access denied"]
      (redirect ep_home) in
  @edit demo "2" store_AB (Some 1) (rating_post "5") = denied
  /\ @delete demo "2" store_AB (Some 1) (rating_post "5") = denied.
Proof.
  apply (@edit_delete_not_found_or_forbidden demo store_AB (Some 1) user_A "2"
           (rating_post "5")).
  - reflexivity.
  - intros b Hb Hid. each_row Hb; by vm_compute.
Defined.

Lemma anonymous_book_registry_witness :
  let to_login :=
    mkOutcome store_AB None ["Please log in to access this page."]
      (redirect ep_login) in
  home store_AB None (book_post "Solaris" "Lem" "8")
  = mkOutcome store_AB None [] (render_template (index_html []))
  /\ @add demo store_AB None (book_post "Solaris" "Lem" "8") = to_login
  /\ @edit demo "1" store_AB None (book_post "Solaris" "Lem" "8") = to_login
  /\ @delete demo "1" store_AB None (book_post "Solaris" "Lem" "8") = to_login.
Proof.
  apply (@anonymous_book_registry demo store_AB None "1"
           (book_post "Solaris" "Lem" "8")).
  reflexivity.
Defined.

(** A registration under A's e-mail. *)
Lemma register_duplicate_or_fresh_witness :
  @register demo store_AB None (register_post "Ann" "a@x.com" "secret9")
  = mkOutcome store_AB None ["Email already registered. Please login."]
      (redirect ep_login).
Proof.
  apply (@register_duplicate_or_fresh demo store_AB None
           (register_post "Ann" "a@x.com" "secret9")) with (e := "a@x.com").
  - reflexivity.
  - exists user_A. split; [left|reflexivity].
  - by eexists.
Defined.

(** A's e-mail with B's password. *)
Lemma login_iff_credentials_witness :
  @login demo store_AB None (login_post "a@x.com" "secret2")
  = mkOutcome store_AB None ["Invalid email or password"] (redirect ep_login).
Proof.
  apply (@login_iff_credentials demo store_AB None
           (login_post "a@x.com" "secret2")
           (LoginForm.mk "a@x.com" "secret2")) with (u := user_A).
  - apply store_AB_schema.
  - reflexivity.
  - left.
  - reflexivity.
  - by vm_compute.
Defined.

(** A third user registers, then someone registers under A's e-mail. *)
Lemma email_unique_invariant_witness :
  let calls :=
    [ mkCall None route_register (register_post "Cy" "c@x.com" "secret3");
      mkCall (Some 3) route_register (register_post "Al" "a@x.com" "secret4") ] in
  NoDup (User.email <$> users (@run demo store_AB calls))
  /\ users store_AB `prefix_of` users (@run demo store_AB calls).
Proof.
  apply (@email_unique_invariant demo store_AB).
  apply store_AB_schema.
Defined.

Lemma password_stored_hashed_witness :
  exists new_user,
    users (store (@register demo store_AB None
                    (register_post "Cy" "c@x.com" "secret3")))
    = users store_AB ++ [new_user]
    /\ User.password new_user = demo_hash "secret3" "NaCl"
    /\ User.password new_user <> "secret3".
Proof.
  apply (proj1 (@password_stored_hashed demo demo_hash_not_password)
           store_AB None (register_post "Cy" "c@x.com" "secret3")
           (RegisterForm.mk "Cy" "c@x.com" "secret3")).
  - reflexivity.
  - intros u Hu. each_row Hu; by vm_compute.
Defined.

(** A rates "Dune" 8, or deletes it: "Emma" and the users stay. *)
Lemma edit_delete_frame_witness :
  exists before after,
    books store_AB = before ++ dune :: after
    /\ (forall r, @edit_accepts demo (rating_post "8") r ->
          @edit demo "1" store_AB (Some 1) (rating_post "8")
          = mkOutcome
              {| users := users store_AB;
                 books := before
                          ++ {| Book.id := Book.id dune;
                                Book.title := Book.title dune;
                                Book.author := Book.author dune;
                                Book.rating := stored_float r;
                                Book.user_id := Book.user_id dune |}
                          :: after |}
              (Some 1) [] (redirect ep_home))
    /\ @delete demo "1" store_AB (Some 1) (rating_post "8")
       = mkOutcome {| users := users store_AB; books := before ++ after |}
           (Some 1) [] (redirect ep_home).
Proof.
  apply (@edit_delete_frame demo store_AB (Some 1) user_A "1" (rating_post "8") dune).
  - apply store_AB_schema.
  - reflexivity.
  - left.
  - reflexivity.
  - reflexivity.
Defined.

(** A password of five characters. *)
Lemma register_form_constraints_witness :
  @register demo store_AB None (register_post "Cy" "c@x.com" "secre")
  = mkOutcome store_AB None [] (render_template register_html).
Proof.
  apply (proj1 (@register_form_constraints demo store_AB None
                  (register_post "Cy" "c@x.com" "secre"))) with (p := "secre").
  - reflexivity.
  - simpl. lia.
Defined.

(** * Further properties of the views *)

Section Writes.
Context `{Platform}.

(** What a validated book form was made from. *)
Lemma BookForm_valid req form :
  BookForm.validate_on_submit req = Some form ->
  method req = POST /\ csrf_valid req = true
  /\ form_get "name" (request_form req) = Some (BookForm.name form)
  /\ form_get "author" (request_form req) = Some (BookForm.author form)
  /\ DataRequired (BookForm.name form) = true
  /\ DataRequired (BookForm.author form) = true
  /\ in_range (BookForm.rating form) = true
  /\ PrimFloat.eqb (BookForm.rating form) 0 = false.
Proof.
  unfold BookForm.validate_on_submit, is_submitted.
  destruct (method req); [done|]. destruct (csrf_valid req); [|done]. simpl.
  destruct (StringField _ (form_get "name" _)) as [n|] eqn:Hn; [|done].
  destruct (StringField _ (form_get "author" _)) as [a|] eqn:Ha; [|done].
  destruct (FloatField _ _) as [x|] eqn:Hx; [|done].
  intros [= <-]. simpl.
  apply StringField_Some in Hn as [-> Hn], Ha as [-> Ha].
  apply BookForm_rating_accepted in Hx as (_ & _ & _ & Hr & Hz).
  simpl in Hn, Ha. rewrite andb_true_r in Hn, Ha. done.
Qed.

(** The validators a validated registration form has passed. *)
Lemma RegisterForm_valid_fields req form :
  RegisterForm.validate_on_submit req = Some form ->
  DataRequired (RegisterForm.name form) = true
  /\ DataRequired (RegisterForm.email form) = true
  /\ email_validator (RegisterForm.email form) = true
  /\ DataRequired (RegisterForm.password form) = true.
Proof.
  unfold RegisterForm.validate_on_submit, is_submitted.
  destruct (method req); [done|]. destruct (csrf_valid req); [|done]. simpl.
  destruct (StringField _ (form_get "name" _)) as [n|] eqn:Hn; [|done].
  destruct (StringField _ (form_get "email" _)) as [e|] eqn:He; [|done].
  destruct (StringField _ (form_get "password" _)) as [p|] eqn:Hp; [|done].
  intros [= <-]. simpl.
  apply StringField_Some in Hn as [_ Hn], He as [_ He], Hp as [_ Hp].
  simpl in Hn, He, Hp. rewrite andb_true_r in Hn, He, Hp.
  apply andb_prop in Hn as [Hn _], He as [He1 He2], Hp as [Hp _]. done.
Qed.

(** Every way a request writes the store: a valid registration under a new
    e-mail, a valid [add] under a new title, an accepted [edit] of an own
    book, a [delete] of an own book; each of them a [POST]. *)
Lemma dispatch_request_writes r st s req :
  store (dispatch_request r st s req) = st
  \/ (exists form,
        r = route_register /\ method req = POST
        /\ RegisterForm.validate_on_submit req = Some form
        /\ (forall u, u ∈ users st -> User.email u <> RegisterForm.email form)
        /\ store (dispatch_request r st s req)
           = add_user
               {| User.id := next_id (User.id <$> users st);
                  User.email := RegisterForm.email form;
                  User.password :=
                    generate_password_hash (RegisterForm.password form) (salt req);
                  User.name := RegisterForm.name form |} st)
  \/ (exists u form,
        r = route_add /\ method req = POST
        /\ current_user st s = Some u
        /\ BookForm.validate_on_submit req = Some form
        /\ (forall b, b ∈ books st -> Book.title b <> BookForm.name form)
        /\ store (dispatch_request r st s req)
           = add_book
               {| Book.id := next_id (Book.id <$> books st);
                  Book.title := BookForm.name form;
                  Book.author := BookForm.author form;
                  Book.rating := BookForm.rating form;
                  Book.user_id := User.id u |} st)
  \/ (exists u book_id book x,
        r = route_edit book_id /\ method req = POST
        /\ current_user st s = Some u
        /\ scalar (own_book book_id u st) = Some book
        /\ edit_accepts req x
        /\ store (dispatch_request r st s req) = update_rating book x st)
  \/ (exists u book_id book,
        r = route_delete book_id /\ method req = POST
        /\ current_user st s = Some u
        /\ scalar (own_book book_id u st) = Some book
        /\ store (dispatch_request r st s req) = delete_book book st).
Proof.
  unfold dispatch_request. case_decide as Hm; [|by left].
  destruct r as [| | | | |book_id|book_id]; simpl.
  - unfold register.
    destruct (RegisterForm.validate_on_submit req) as [form|] eqn:Hform; [|by left].
    destruct (scalar _) as [u|] eqn:Hq; [by left|].
    right; left. exists form. repeat split; try done.
    + by apply RegisterForm_valid in Hform as [? _].
    + exact (proj1 (scalar_filter_None _ _) Hq).
  - left. unfold login. by repeat case_match.
  - left. unfold logout, login_required. by case_match.
  - by left.
  - unfold add, login_required.
    destruct (current_user st s) as [u|] eqn:Hcu; [|by left].
    destruct (BookForm.validate_on_submit req) as [form|] eqn:Hform; [|by left].
    destruct (filter _ (books st)) as [|b1 [|b2 rows]] eqn:Hrows; simpl;
      [|by left..].
    right; right; left. exists u, form. repeat split; try done.
    + by apply BookForm_valid in Hform as [? _].
    + intros b Hb Ht. by eapply (filter_nil_not_elem_of _ (books st) b).
  - unfold edit, login_required.
    destruct (current_user st s) as [u|] eqn:Hcu; [|by left].
    destruct (scalar _) as [book|] eqn:Hq; [|by left].
    destruct (method req) eqn:Hmeth; [by left|].
    destruct (form_get "rating" (request_form req)) as [text|] eqn:Ht; [|by left].
    simpl. destruct (py_float text) as [x|] eqn:Hx; [|by left].
    destruct (in_range x) eqn:Hr; [|by left].
    right; right; right; left. exists u, book_id, book, x.
    repeat split; try done. by exists text.
  - unfold delete, login_required.
    destruct (current_user st s) as [u|] eqn:Hcu; [|by left].
    destruct (scalar _) as [book|] eqn:Hq; [|by left].
    right; right; right; right. exists u, book_id, book.
    repeat split; try done.
    simpl in Hm. by apply list_elem_of_singleton in Hm.
Qed.

(** The session's user depends on the user table only. *)
Lemma current_user_users st st' s :
  users st' = users st -> current_user st' s = current_user st s.
Proof. intros Hu. unfold current_user, load_user. by rewrite Hu. Qed.

(** Appending users does not change whom a session loads. *)
Lemma current_user_append st st' s u more :
  users st' = users st ++ more ->
  current_user st s = Some u -> current_user st' s = Some u.
Proof.
  intros Hu. destruct s as [i|]; [|done]. simpl. unfold load_user, scalar.
  rewrite Hu, filter_app. destruct (filter _ (users st)); [done|]. done.
Qed.

(** The user table only grows. *)
Lemma run_users_prefix st calls : users st `prefix_of` users (run st calls).
Proof.
  apply (run_invariant (fun st' => users st `prefix_of` users st')); [|done].
  intros r st' s req Hpre.
  destruct (dispatch_request_users r st' s req) as [-> | (f & _ & _ & _ & ->)];
    [done|by apply prefix_app_r].
Qed.

End Writes.

Section Sessions.
Context `{Platform}.

Lemma forms_need_post req :
  method req = GET ->
  RegisterForm.validate_on_submit req = None
  /\ LoginForm.validate_on_submit req = None
  /\ BookForm.validate_on_submit req = None.
Proof.
  intros Hm.
  unfold RegisterForm.validate_on_submit, LoginForm.validate_on_submit,
    BookForm.validate_on_submit, is_submitted.
  by rewrite Hm.
Qed.

(** X1. [logout] by a logged-in user clears the session, leaves the
    store as it is and redirects to the login page; with the session
    it leaves, [add], [edit], [delete] and [logout] redirect to the
    login page and [home] lists nothing, whatever the store holds. *)
Theorem logout_ends_session st s u req :
  current_user st s = Some u ->
  logout st s req = mkOutcome st None [] (redirect ep_login)
  /\ forall st' book_id req',
       let s' := session (logout st s req) in
       let to_login :=
         mkOutcome st' s' ["Please log in to access this page."]
           (redirect ep_login) in
       add st' s' req' = to_login
       /\ edit book_id st' s' req' = to_login
       /\ delete book_id st' s' req' = to_login
       /\ logout st' s' req' = to_login
       /\ home st' s' req' = mkOutcome st' s' [] (render_template (index_html [])).
Proof.
  intros Hcu.
  assert (Hout : logout st s req = mkOutcome st None [] (redirect ep_login)).
  { unfold logout. by rewrite (login_required_user _ _ _ _ u Hcu). }
  split; [done|]. intros st' book_id req'. rewrite Hout. simpl.
  unfold add, edit, delete, logout, home.
  by rewrite !login_required_anonymous.
Qed.

(** X2. A [GET] request writes nothing to the store, on any route, and
    changes the session on no route but [logout]. *)
Theorem get_never_writes r st s req :
  method req = GET ->
  store (dispatch_request r st s req) = st
  /\ (r <> route_logout -> session (dispatch_request r st s req) = s).
Proof.
  intros Hm. destruct (forms_need_post req Hm) as (Hreg & Hlog & Hbook).
  unfold dispatch_request. case_decide as Hin; [|done].
  destruct r as [| | | | |book_id|book_id]; simpl.
  - unfold register. by rewrite Hreg.
  - unfold login. by rewrite Hlog.
  - split; [|done]. unfold logout, login_required. by case_match.
  - done.
  - unfold add, login_required. rewrite Hbook. by case_match.
  - unfold edit, login_required. rewrite Hm. by repeat case_match.
  - simpl in Hin. rewrite Hm in Hin. by apply list_elem_of_singleton in Hin.
Qed.

(** X3. The views of the book registry and [home] leave the session as it
    is; [logout] leaves it as it is or empty; and a session that [register]
    or [login] changes loads a user of the store. *)
Theorem issued_session_loads_user r st s req :
  let out := dispatch_request r st s req in
  session out = s
  \/ (r = route_logout /\ session out = None)
  \/ ((r = route_register \/ r = route_login)
      /\ is_Some (current_user (store out) (session out))).
Proof.
  cbv zeta. unfold dispatch_request. case_decide; [|by left].
  destruct r as [| | | | |book_id|book_id]; simpl.
  - unfold register.
    destruct (RegisterForm.validate_on_submit req) as [form|]; [|by left].
    destruct (scalar _) as [u|]; [by left|].
    right; right. split; [by left|]. simpl. eexists.
    apply (load_new_user st (User.mk _ _ _ _)). apply next_id_fresh.
  - unfold login.
    destruct (LoginForm.validate_on_submit req) as [form|]; [|by left].
    destruct (scalar _) as [u|] eqn:Hq; [|by left].
    destruct (check_password_hash _ _); [|by left].
    right; right. split; [by right|]. simpl.
    apply scalar_filter_Some in Hq as [Hu _].
    by apply (scalar_filter_is_Some (fun u' => User.id u' = User.id u) _ u).
  - unfold logout, login_required.
    destruct (current_user st s); [right; left; done|by left].
  - by left.
  - left. unfold add, login_required. by repeat case_match.
  - left. unfold edit, login_required. by repeat case_match.
  - left. unfold delete, login_required. by repeat case_match.
Qed.

(** X4. A session that loads a user loads the same user after any sequence
    of calls: users are never removed or rewritten, so no request of anyone
    logs another client out. *)
Theorem session_survives st s u calls :
  current_user st s = Some u -> current_user (run st calls) s = Some u.
Proof.
  intros Hcu. destruct (run_users_prefix st calls) as [more Hmore].
  by apply (current_user_append st _ s u more).
Qed.

End Sessions.

Section Isolation.
Context `{Platform}.

(** The rows of one owner, around a row of another owner. *)
Lemma filter_owner_split (v : nat) (before after : list Book.t) (b : Book.t) :
  Book.user_id b <> v ->
  filter (fun b' => Book.user_id b' = v) (before ++ b :: after)
  = filter (fun b' => Book.user_id b' = v) (before ++ after).
Proof. intros Hb. by rewrite !filter_app, filter_cons_False. Qed.

(** X5. No request changes what [home] shows another user: the books listed
    for a user are the same before and after any request made under a
    session of somebody else, or of nobody. *)
Theorem other_users_list_unchanged r st s req s2 w req2 :
  NoDup (Book.id <$> books st) ->
  current_user st s2 = Some w ->
  (forall u, current_user st s = Some u -> User.id u <> User.id w) ->
  response (home (store (dispatch_request r st s req)) s2 req2)
  = response (home st s2 req2).
Proof.
  intros Hpk Hw Hother. unfold home. rewrite Hw.
  assert (Hw' : current_user (store (dispatch_request r st s req)) s2 = Some w).
  { destruct (dispatch_request_users r st s req) as [Hu | (f & _ & _ & _ & Hu)].
    - by rewrite (current_user_users _ _ _ Hu).
    - by apply (current_user_append st _ s2 w _ Hu). }
  rewrite Hw'. simpl. do 2 f_equal.
  destruct (dispatch_request_writes r st s req)
    as [-> | [(f & _ & _ & _ & _ & ->)
       | [(u & f & _ & _ & Hu & _ & _ & ->)
       | [(u & i & b & x & _ & _ & Hu & Hq & _ & ->)
       | (u & i & b & _ & _ & Hu & Hq & ->)]]]]; simpl.
  - done.
  - done.
  - rewrite filter_app, filter_cons_False, filter_nil, app_nil_r; [done|].
    simpl. by apply Hother.
  - apply scalar_filter_Some in Hq as (Hb & _ & Hown).
    destruct (list_elem_of_split _ _ Hb) as (before & after & Hsplit).
    pose proof (update_rating_split st b x before after Hpk Hsplit) as Hupd.
    apply (f_equal books) in Hupd. simpl in Hupd. rewrite Hupd, Hsplit.
    rewrite !filter_owner_split; [done|..]; simpl; rewrite Hown; by apply Hother.
  - apply scalar_filter_Some in Hq as (Hb & _ & Hown).
    destruct (list_elem_of_split _ _ Hb) as (before & after & Hsplit).
    pose proof (delete_book_split st b before after Hpk Hsplit) as Hdel.
    apply (f_equal books) in Hdel. simpl in Hdel.
    rewrite Hdel, Hsplit.
    rewrite filter_owner_split; [done|]. rewrite Hown. by apply Hother.
Qed.

(** X6. Register, then log in: after a valid registration under a new
    e-mail, a login submitting the same e-mail and password, which the
    hashing routine verifies against the hash it made, succeeds on the store
    the registration left and gives the session the registration gave. *)
Theorem register_then_login st s req form s2 req2 :
  RegisterForm.validate_on_submit req = Some form ->
  (forall u, u ∈ users st -> User.email u <> RegisterForm.email form) ->
  check_password_hash
    (generate_password_hash (RegisterForm.password form) (salt req))
    (RegisterForm.password form) = true ->
  method req2 = POST -> csrf_valid req2 = true ->
  form_get "email" (request_form req2) = Some (RegisterForm.email form) ->
  form_get "password" (request_form req2) = Some (RegisterForm.password form) ->
  let out := register st s req in
  login (store out) s2 req2
  = mkOutcome (store out) (session out) [] (redirect ep_home).
Proof.
  intros Hform Hfresh Hcheck Hm Hcsrf He Hp. cbv zeta.
  destruct (RegisterForm_valid_fields req form Hform) as (_ & He1 & He2 & Hp1).
  assert (Hlogin : LoginForm.validate_on_submit req2
                   = Some (LoginForm.mk (RegisterForm.email form)
                             (RegisterForm.password form))).
  { unfold LoginForm.validate_on_submit, is_submitted, StringField.
    rewrite Hm, Hcsrf, He, Hp. simpl. by rewrite He1, He2, Hp1. }
  unfold register. rewrite Hform.
  rewrite (proj2 (scalar_filter_None _ _) Hfresh). simpl.
  unfold login. rewrite Hlogin. simpl.
  rewrite filter_app, (filter_none _ _ Hfresh), filter_cons_True by done.
  simpl. by rewrite Hcheck.
Qed.

End Isolation.

Section Invariants.
Context `{Platform}.

(** A value of a column without duplicates selects at most one row. *)
Lemma filter_key_length {A K : Type} `{EqDecision K} (key : A -> K) (k : K)
    (rows : list A) :
  NoDup (key <$> rows) -> length (filter (fun x => key x = k) rows) <= 1.
Proof.
  induction rows as [|x rows IH]; [simpl; lia|].
  rewrite fmap_cons, NoDup_cons. intros [Hx Hnd]. rewrite filter_cons.
  case_decide as Hk; [|by apply IH]. simpl.
  rewrite (filter_none (fun y => key y = k) rows); [simpl; lia|].
  intros y Hy Hyk. apply Hx. rewrite Hk, <- Hyk. by apply list_elem_of_fmap_2.
Qed.

(** C4. On every store the application produces, the store after any
    sequence of calls on the empty store, a valid [add] by a logged-in user
    does one of two things.  Under a title that a book of the store has,
    whoever owns it, it creates nothing: it redirects home, flashes nothing
    and leaves the store as it is.  Under a title no book has it appends
    exactly one row, with a fresh id, the submitted title, author and
    rating, and the current user as owner, and redirects home. *)
Theorem add_skips_or_creates calls st s u req form :
  st = run empty_store calls ->
  current_user st s = Some u ->
  BookForm.validate_on_submit req = Some form ->
  ((exists b, b ∈ books st /\ Book.title b = BookForm.name form) ->
     add st s req = mkOutcome st s [] (redirect ep_home))
  /\ ((forall b, b ∈ books st -> Book.title b <> BookForm.name form) ->
        let new_book :=
          {| Book.id := next_id (Book.id <$> books st);
             Book.title := BookForm.name form;
             Book.author := BookForm.author form;
             Book.rating := BookForm.rating form;
             Book.user_id := User.id u |} in
        add st s req
        = mkOutcome {| users := users st; books := books st ++ [new_book] |}
            s [] (redirect ep_home)
        /\ (Book.id new_book ∉ Book.id <$> books st)).
Proof.
  intros -> Hcu Hform. apply (add_at_most_one_title _ s u req form Hcu Hform).
  apply filter_key_length, run_titles_unique. simpl. apply NoDup_nil_2.
Qed.

(** X7. From a store whose titles are pairwise distinct, no request after
    any sequence of calls fails in the title lookup of [add]: the only
    failure the application then answers with is the refusal of a method
    that the route does not take. *)
Theorem no_lookup_failure st calls r s req e :
  NoDup (Book.title <$> books st) ->
  response (dispatch_request r (run st calls) s req) = failure e ->
  e = MethodNotAllowed /\ method req ∉ methods r.
Proof.
  intros Hnd. apply (run_titles_unique st calls) in Hnd.
  generalize dependent (run st calls). intros st' Hnd.
  unfold dispatch_request. case_decide; [|by intros [= <-]].
  destruct r as [| | | | |book_id|book_id]; simpl.
  - unfold register. by repeat case_match.
  - unfold login. by repeat case_match.
  - unfold logout, login_required. by case_match.
  - done.
  - unfold add, login_required.
    destruct (current_user st' s); [|done].
    destruct (BookForm.validate_on_submit req) as [form|]; [|done].
    pose proof (filter_key_length Book.title (BookForm.name form) _ Hnd) as Hlen.
    destruct (filter _ (books st')) as [|b1 [|b2 rows]]; simpl in *; try done. lia.
  - unfold edit, login_required. by repeat case_match.
  - unfold delete, login_required. by repeat case_match.
Qed.

(** X8. If every book of the store has a title and an author that are not
    blank and a rating within [0, 10], so has every book of the store after
    any sequence of calls. *)
Theorem book_fields_invariant st calls :
  (forall b, b ∈ books st ->
     DataRequired (Book.title b) = true /\ DataRequired (Book.author b) = true
     /\ in_range (Book.rating b) = true) ->
  forall b, b ∈ books (run st calls) ->
    DataRequired (Book.title b) = true /\ DataRequired (Book.author b) = true
    /\ in_range (Book.rating b) = true.
Proof.
  apply (run_invariant
           (fun st' => forall b, b ∈ books st' ->
              DataRequired (Book.title b) = true
              /\ DataRequired (Book.author b) = true
              /\ in_range (Book.rating b) = true)).
  intros r st' s req Hinv b.
  destruct (dispatch_request_writes r st' s req)
    as [-> | [(f & _ & _ & _ & _ & ->)
       | [(u & f & _ & _ & _ & Hf & _ & ->)
       | [(u & i & b0 & x & _ & _ & _ & _ & Hx & ->)
       | (u & i & b0 & _ & _ & _ & _ & ->)]]]]; simpl.
  - apply Hinv.
  - apply Hinv.
  - intros Hb. apply elem_of_app in Hb as [Hb|Hb]; [by apply Hinv|].
    apply list_elem_of_singleton in Hb as ->. simpl.
    by apply BookForm_valid in Hf as (_ & _ & _ & _ & ? & ? & ? & _).
  - intros Hb. apply list_elem_of_fmap in Hb as (b1 & -> & Hb1).
    destruct (Hinv b1 Hb1) as (Ht & Ha & Hr).
    case_decide; [|done]. simpl. repeat split; try done.
    destruct Hx as (_ & text & _ & _ & Hin). by apply stored_float_in_range.
  - intros Hb. apply list_elem_of_filter in Hb as [_ Hb]. by apply Hinv.
Qed.

(** X9. If every book of the store is owned by a user of the store, so is
    every book of the store after any sequence of calls: [add] gives a book
    to the user of the session, and no user is ever removed. *)
Theorem owners_exist_invariant st calls :
  (forall b, b ∈ books st ->
     exists u, u ∈ users st /\ User.id u = Book.user_id b) ->
  forall b, b ∈ books (run st calls) ->
    exists u, u ∈ users (run st calls) /\ User.id u = Book.user_id b.
Proof.
  apply (run_invariant
           (fun st' => forall b, b ∈ books st' ->
              exists u, u ∈ users st' /\ User.id u = Book.user_id b)).
  intros r st' s req Hinv b.
  destruct (dispatch_request_writes r st' s req)
    as [-> | [(f & _ & _ & _ & _ & ->)
       | [(u & f & _ & _ & Hu & _ & _ & ->)
       | [(u & i & b0 & x & _ & _ & _ & _ & _ & ->)
       | (u & i & b0 & _ & _ & _ & _ & ->)]]]]; simpl.
  - apply Hinv.
  - intros Hb. destruct (Hinv b Hb) as (u & Hu & Hid).
    exists u. split; [|done]. apply elem_of_app. by left.
  - intros Hb. apply elem_of_app in Hb as [Hb|Hb]; [by apply Hinv|].
    apply list_elem_of_singleton in Hb as ->. simpl.
    exists u. split; [|done]. by apply (current_user_elem st' s).
  - intros Hb. apply list_elem_of_fmap in Hb as (b1 & -> & Hb1).
    destruct (Hinv b1 Hb1) as (u1 & Hu1 & Hid).
    exists u1. split; [done|]. by case_decide.
  - intros Hb. apply list_elem_of_filter in Hb as [_ Hb]. by apply Hinv.
Qed.

(** X10. A user who has just registered sees an empty list: in a store
    whose books all have an owner among its users, [home] under the session
    a registration gives lists no book, however many the store holds. *)
Theorem new_user_sees_no_books st s req form req2 :
  (forall b, b ∈ books st ->
     exists u, u ∈ users st /\ User.id u = Book.user_id b) ->
  RegisterForm.validate_on_submit req = Some form ->
  (forall u, u ∈ users st -> User.email u <> RegisterForm.email form) ->
  let out := register st s req in
  home (store out) (session out) req2
  = mkOutcome (store out) (session out) [] (render_template (index_html [])).
Proof.
  intros Hfk Hform Hfresh. cbv zeta. unfold register. rewrite Hform.
  rewrite (proj2 (scalar_filter_None _ _) Hfresh). simpl.
  pose proof (next_id_fresh (User.id <$> users st)) as Hid.
  unfold home.
  rewrite (load_new_user st (User.mk _ _ _ _)) by done. simpl.
  rewrite filter_none; [done|].
  intros b Hb Hown. destruct (Hfk b Hb) as (u & Hu & Hu').
  apply Hid. rewrite <- Hown, <- Hu'. by apply list_elem_of_fmap_2.
Qed.

End Invariants.

Section Composition.
Context `{Platform}.

(** X11. Delete, then ask again: once the owner has deleted a book, it is no
    longer in the store, and an [edit] or [delete] under the same id by the
    same user is answered 'Book not found or access denied' and changes
    nothing. *)
Theorem delete_then_gone st s u book_id req book req2 :
  NoDup (Book.id <$> books st) ->
  current_user st s = Some u ->
  book ∈ books st ->
  sql_integer book_id = Some (Book.id book) ->
  Book.user_id book = User.id u ->
  let st' := store (delete book_id st s req) in
  let denied :=
    mkOutcome st' s ["Book not found or access denied"] (redirect ep_home) in
  (book ∉ books st')
  /\ edit book_id st' s req2 = denied
  /\ delete book_id st' s req2 = denied.
Proof.
  intros Hpk Hcu Hin Hid Hown. cbv zeta.
  pose proof (own_book_found _ _ _ _ Hpk Hin Hid Hown) as Hq.
  destruct (list_elem_of_split _ _ Hin) as (before & after & Hsplit).
  assert (Hst' : store (delete book_id st s req)
                 = {| users := users st; books := before ++ after |}).
  { unfold delete. rewrite (login_required_user _ _ _ _ u Hcu), Hq. simpl.
    by apply delete_book_split. }
  rewrite Hst'. rewrite Hsplit in Hpk.
  pose proof (NoDup_key_split Book.id _ _ _ Hpk) as Hne.
  assert (Hcu' : current_user {| users := users st; books := before ++ after |} s
                 = Some u) by (rewrite <- Hcu; by apply current_user_users).
  assert (Hnone : scalar (own_book book_id u
                            {| users := users st; books := before ++ after |})
                  = None).
  { apply own_book_None. simpl. intros b Hb Hb' _.
    apply (Hne b Hb). congruence. }
  split; [|split].
  - simpl. intros Hb. by apply (Hne book Hb).
  - unfold edit. by rewrite (login_required_user _ _ _ _ u Hcu'), Hnone.
  - unfold delete. by rewrite (login_required_user _ _ _ _ u Hcu'), Hnone.
Qed.

(** X12. Edit, then read: after the owner's accepted [edit] of a book, the
    edit page of that id shows the book with the rating just submitted, as
    the store keeps it (a negative zero as zero), and its other columns as
    before. *)
Theorem edit_then_read st s u book_id req book x req2 :
  NoDup (Book.id <$> books st) ->
  current_user st s = Some u ->
  book ∈ books st ->
  sql_integer book_id = Some (Book.id book) ->
  Book.user_id book = User.id u ->
  edit_accepts req x ->
  method req2 = GET ->
  let st' := store (edit book_id st s req) in
  edit book_id st' s req2
  = mkOutcome st' s []
      (render_template
         (edit_html {| Book.id := Book.id book;
                       Book.title := Book.title book;
                       Book.author := Book.author book;
                       Book.rating := stored_float x;
                       Book.user_id := Book.user_id book |})).
Proof.
  intros Hpk Hcu Hin Hid Hown Hx Hget. cbv zeta.
  pose proof (own_book_found _ _ _ _ Hpk Hin Hid Hown) as Hq.
  destruct (list_elem_of_split _ _ Hin) as (before & after & Hsplit).
  destruct (edit_own_book _ _ _ _ req _ Hcu Hq) as [Hedit _].
  rewrite (Hedit x Hx). simpl.
  rewrite (update_rating_split st book x before after Hpk Hsplit).
  set (st' := {| users := users st;
                 books := before ++ Book.set_rating (stored_float x) book
                          :: after |}).
  assert (Hcu' : current_user st' s = Some u)
    by (rewrite <- Hcu; by apply current_user_users).
  assert (Hq' : scalar (own_book book_id u st')
                = Some (Book.set_rating (stored_float x) book)).
  { apply own_book_found; try done.
    - simpl. rewrite Hsplit in Hpk. by rewrite fmap_app, fmap_cons in *.
    - simpl. apply elem_of_app. right. by left. }
  unfold edit. by rewrite (login_required_user _ _ _ _ u Hcu'), Hq', Hget.
Qed.

(** X13. Add, then list: after a valid [add] under a title no book has, the
    user's list is the list as it was with the new book at its end. *)
Theorem add_then_list st s u req form req2 :
  current_user st s = Some u ->
  BookForm.validate_on_submit req = Some form ->
  (forall b, b ∈ books st -> Book.title b <> BookForm.name form) ->
  let out := add st s req in
  response (home (store out) (session out) req2)
  = render_template
      (index_html
         (filter (fun b => Book.user_id b = User.id u) (books st)
          ++ [ {| Book.id := next_id (Book.id <$> books st);
                  Book.title := BookForm.name form;
                  Book.author := BookForm.author form;
                  Book.rating := BookForm.rating form;
                  Book.user_id := User.id u |} ])).
Proof.
  intros Hcu Hform Hnone. cbv zeta. unfold add.
  rewrite (login_required_user _ _ _ _ u Hcu), Hform, (filter_none _ _ Hnone).
  simpl. unfold home.
  rewrite (current_user_users st (add_book _ st) s) by done. rewrite Hcu. simpl.
  by rewrite filter_app, filter_cons_True.
Qed.

(** X14. Add twice: after a valid [add] under a title no book has, a valid
    [add] of the same title, by the same user or by any other, creates
    nothing and redirects home. *)
Theorem add_twice_skips st s u req form s2 u2 req2 form2 :
  current_user st s = Some u ->
  BookForm.validate_on_submit req = Some form ->
  (forall b, b ∈ books st -> Book.title b <> BookForm.name form) ->
  let st' := store (add st s req) in
  current_user st' s2 = Some u2 ->
  BookForm.validate_on_submit req2 = Some form2 ->
  BookForm.name form2 = BookForm.name form ->
  add st' s2 req2 = mkOutcome st' s2 [] (redirect ep_home).
Proof.
  intros Hcu Hform Hnone. cbv zeta.
  assert (Hst' : exists new_book,
            Book.title new_book = BookForm.name form
            /\ store (add st s req) = add_book new_book st).
  { eexists. split; [|unfold add;
      by rewrite (login_required_user _ _ _ _ u Hcu), Hform,
                 (filter_none _ _ Hnone)]. done. }
  destruct Hst' as (new_book & Htitle & ->).
  intros Hcu2 Hform2 Hname. unfold add.
  rewrite (login_required_user _ _ _ _ u2 Hcu2), Hform2, Hname. simpl.
  by rewrite filter_app, (filter_none _ _ Hnone), filter_cons_True.
Qed.

(** X15. A refused login does not tell whether the e-mail is registered: a
    validated login under an e-mail no user has and a validated login under
    a user's e-mail with a password that does not verify get the same
    answer. *)
Theorem login_refusal_uniform st s req1 form1 req2 form2 u :
  NoDup (User.email <$> users st) ->
  LoginForm.validate_on_submit req1 = Some form1 ->
  LoginForm.validate_on_submit req2 = Some form2 ->
  (forall v, v ∈ users st -> User.email v <> LoginForm.email form1) ->
  u ∈ users st -> User.email u = LoginForm.email form2 ->
  check_password_hash (User.password u) (LoginForm.password form2) = false ->
  login st s req1 = login st s req2
  /\ login st s req2
     = mkOutcome st s ["Invalid email or password"] (redirect ep_login).
Proof.
  intros Hunique Hf1 Hf2 Hnone Hu He Hpw.
  assert (H1 : login st s req1
               = mkOutcome st s ["Invalid email or password"] (redirect ep_login)).
  { unfold login. by rewrite Hf1, (proj2 (scalar_filter_None _ _) Hnone). }
  assert (H2 : login st s req2
               = mkOutcome st s ["Invalid email or password"] (redirect ep_login)).
  { unfold login. rewrite Hf2.
    destruct (scalar _) as [u'|] eqn:Hq; [|done].
    apply scalar_filter_Some in Hq as [Hu' He'].
    assert (u' = u) as ->
      by (apply (filter_key_unique User.email (users st)); [done..|congruence]).
    by rewrite Hpw. }
  by rewrite H1, H2.
Qed.

End Composition.

Section Submissions.
Context `{Platform}.

Lemma forms_need_token req :
  csrf_valid req = false ->
  RegisterForm.validate_on_submit req = None
  /\ LoginForm.validate_on_submit req = None
  /\ BookForm.validate_on_submit req = None.
Proof.
  intros Hc.
  unfold RegisterForm.validate_on_submit, LoginForm.validate_on_submit,
    BookForm.validate_on_submit.
  by rewrite Hc, andb_false_r.
Qed.

(** X16. The three forms check the CSRF token, [edit] and [delete] do not: a
    submission whose token does not verify gets the form of [register],
    [login] or [add] again and changes nothing, while [edit] and [delete]
    answer it as they answer the same submission with a token that
    verifies. *)
Theorem csrf_checked_by_forms_only st s req book_id :
  csrf_valid req = false ->
  let with_token :=
    {| method := method req; request_form := request_form req;
       csrf_valid := true; salt := salt req |} in
  register st s req = mkOutcome st s [] (render_template register_html)
  /\ login st s req = mkOutcome st s [] (render_template login_html)
  /\ (forall u, current_user st s = Some u ->
        add st s req = mkOutcome st s [] (render_template add_html))
  /\ edit book_id st s req = edit book_id st s with_token
  /\ delete book_id st s req = delete book_id st s with_token.
Proof.
  intros Hc. destruct (forms_need_token req Hc) as (Hreg & Hlog & Hbook).
  cbv zeta. repeat split.
  - unfold register. by rewrite Hreg.
  - unfold login. by rewrite Hlog.
  - intros u Hcu. unfold add.
    by rewrite (login_required_user _ _ _ _ u Hcu), Hbook.
Qed.

(** X17. On a book of the current user, [edit] commits and redirects home
    exactly when the request is a [POST] whose rating converts to a float
    within [0, 10]; a [POST] without a rating, with a text that does not
    convert, or with a float outside the range gets the edit page of the
    book, and the store stays as it is. *)
Theorem edit_commits_iff st s u book_id req book :
  NoDup (Book.id <$> books st) ->
  current_user st s = Some u ->
  book ∈ books st ->
  sql_integer book_id = Some (Book.id book) ->
  Book.user_id book = User.id u ->
  let page := mkOutcome st s [] (render_template (edit_html book)) in
  (response (edit book_id st s req) = redirect ep_home
   <-> exists x, edit_accepts req x)
  /\ (form_get "rating" (request_form req) = None -> edit book_id st s req = page)
  /\ (forall text, form_get "rating" (request_form req) = Some text ->
        py_float text = None -> edit book_id st s req = page)
  /\ (forall text x, form_get "rating" (request_form req) = Some text ->
        py_float text = Some x -> in_range x = false ->
        edit book_id st s req = page).
Proof.
  intros Hpk Hcu Hin Hid Hown page.
  pose proof (own_book_found _ _ _ _ Hpk Hin Hid Hown) as Hq.
  destruct (edit_own_book _ _ _ _ req _ Hcu Hq) as [Hyes Hno].
  assert (Hrefuse : (forall x, ~ edit_accepts req x) -> edit book_id st s req = page)
    by done.
  repeat split.
  - intros Hhome. unfold edit in Hhome.
    rewrite (login_required_user _ _ _ _ u Hcu), Hq in Hhome.
    destruct (method req) eqn:Hm; [done|].
    destruct (form_get "rating" (request_form req)) as [text|] eqn:Ht; [|done].
    simpl in Hhome. destruct (py_float text) as [x|] eqn:Hx; [|done].
    destruct (in_range x) eqn:Hr; [|done].
    exists x. split; [done|]. by exists text.
  - intros [x Hx]. by rewrite (Hyes x Hx).
  - intros Hnone. apply Hrefuse. intros x (_ & text & Ht & _). congruence.
  - intros text Ht Hx. apply Hrefuse. intros x (_ & text' & Ht' & Hx' & _).
    congruence.
  - intros text x Ht Hx Hr. apply Hrefuse. intros x' (_ & text' & Ht' & Hx' & Hr').
    congruence.
Qed.

(** X18. A field that is missing from a submission, or blank, sends the form
    back: [register], [login] and [add] render their form again and change
    neither the store nor the session. *)
Theorem missing_field_rerenders st s req :
  let absent key :=
    form_get key (request_form req) = None
    \/ exists text, form_get key (request_form req) = Some text
                    /\ blank text = true in
  (absent "name" \/ absent "email" \/ absent "password" ->
     register st s req = mkOutcome st s [] (render_template register_html))
  /\ (absent "email" \/ absent "password" ->
        login st s req = mkOutcome st s [] (render_template login_html))
  /\ (forall u, current_user st s = Some u ->
        absent "name" \/ absent "author" \/ form_get "rating" (request_form req) = None ->
        add st s req = mkOutcome st s [] (render_template add_html)).
Proof.
  cbv zeta.
  assert (Hfield : forall key rest,
            (form_get key (request_form req) = None
             \/ exists text, form_get key (request_form req) = Some text
                             /\ blank text = true) ->
            StringField (DataRequired :: rest) (form_get key (request_form req))
            = None).
  { intros key rest [-> | (text & -> & Hb)]; [done|].
    unfold StringField, DataRequired. simpl. by rewrite Hb. }
  repeat split.
  - intros Habs. unfold register, RegisterForm.validate_on_submit.
    destruct (is_submitted req && csrf_valid req); [|done].
    destruct Habs as [Ha | [Ha | Ha]]; rewrite (Hfield _ _ Ha); by repeat case_match.
  - intros Habs. unfold login, LoginForm.validate_on_submit.
    destruct (is_submitted req && csrf_valid req); [|done].
    destruct Habs as [Ha | Ha]; rewrite (Hfield _ _ Ha); by repeat case_match.
  - intros u Hcu Habs. unfold add.
    rewrite (login_required_user _ _ _ _ u Hcu).
    unfold BookForm.validate_on_submit.
    destruct (is_submitted req && csrf_valid req); [|done].
    destruct Habs as [Ha | [Ha | Ha]].
    + rewrite (Hfield _ _ Ha). by repeat case_match.
    + rewrite (Hfield _ _ Ha). by repeat case_match.
    + rewrite Ha. simpl. by repeat case_match.
Qed.

(** X19. Primary keys stay unique: from a store in which no two users and
    no two books share an id, every sequence of calls leads to such a
    store. *)
Theorem primary_keys_stay_unique st calls :
  NoDup (User.id <$> users st) ->
  NoDup (Book.id <$> books st) ->
  NoDup (User.id <$> users (run st calls))
  /\ NoDup (Book.id <$> books (run st calls)).
Proof.
  intros Hu Hb.
  apply (run_invariant
           (fun st' => NoDup (User.id <$> users st')
                       /\ NoDup (Book.id <$> books st'))); [|done].
  clear. intros r st s req [Hu Hb].
  destruct (dispatch_request_writes r st s req)
    as [-> | [(f & _ & _ & _ & _ & ->)
       | [(u & f & _ & _ & _ & _ & _ & ->)
       | [(u & i & b0 & x & _ & _ & _ & _ & _ & ->)
       | (u & i & b0 & _ & _ & _ & _ & ->)]]]]; simpl.
  - done.
  - split; [|done]. apply NoDup_snoc_fresh; [done|]. simpl. intros u Hu' Hid.
    apply (next_id_fresh (User.id <$> users st)). rewrite <- Hid.
    by apply list_elem_of_fmap_2.
  - split; [done|]. apply NoDup_snoc_fresh; [done|]. simpl. intros b Hb' Hid.
    apply (next_id_fresh (Book.id <$> books st)). rewrite <- Hid.
    by apply list_elem_of_fmap_2.
  - split; [done|]. rewrite <- list_fmap_compose.
    erewrite list_fmap_ext; [exact Hb|]. intros ? b' _. simpl. by case_decide.
  - split; [done|]. by apply NoDup_fmap_filter.
Qed.

(** X20. If every user of the store has an e-mail the validator accepts and
    a name of 2 to 100 characters, so has every user of the store after any
    sequence of calls. *)
Theorem user_fields_invariant st calls :
  (forall u, u ∈ users st ->
     email_validator (User.email u) = true
     /\ 2 <= String.length (User.name u) <= 100) ->
  forall u, u ∈ users (run st calls) ->
    email_validator (User.email u) = true
    /\ 2 <= String.length (User.name u) <= 100.
Proof.
  apply (run_invariant
           (fun st' => forall u, u ∈ users st' ->
              email_validator (User.email u) = true
              /\ 2 <= String.length (User.name u) <= 100)).
  intros r st' s req Hinv u.
  destruct (dispatch_request_users r st' s req) as [-> | (f & _ & Hf & _ & ->)];
    [by apply Hinv|].
  intros Hu. apply elem_of_app in Hu as [Hu|Hu]; [by apply Hinv|].
  apply list_elem_of_singleton in Hu as ->. simpl.
  destruct (RegisterForm_valid_fields req f Hf) as (_ & _ & He & _).
  apply RegisterForm_valid in Hf as (_ & _ & _ & _ & _ & Hn & _).
  unfold Length in Hn. apply andb_prop in Hn as [Hn1 Hn2].
  apply Nat.leb_le in Hn1, Hn2. done.
Qed.

End Submissions.

(** ** Instances of the further properties on the store of A and B *)

Lemma store_AB_titles : NoDup (Book.title <$> books store_AB).
Proof. apply (bool_decide_unpack _). by vm_compute. Qed.

Lemma logout_ends_session_witness :
  @logout store_AB (Some 1) get = mkOutcome store_AB None [] (redirect ep_login).
Proof.
  apply (proj1 (@logout_ends_session demo store_AB (Some 1) user_A get eq_refl)).
Defined.

Lemma get_never_writes_witness :
  store (@dispatch_request demo (route_edit "1") store_AB (Some 1) get) = store_AB.
Proof.
  apply (@get_never_writes demo (route_edit "1") store_AB (Some 1) get).
  reflexivity.
Defined.

Lemma session_survives_witness :
  current_user
    (@run demo store_AB
       [ mkCall None route_register (register_post "Cy" "c@x.com" "secret3");
         mkCall (Some 2) (route_delete "2") (post []) ])
    (Some 1)
  = Some user_A.
Proof.
  apply (@session_survives demo store_AB (Some 1) user_A).
  reflexivity.
Defined.

(** B's list after A has deleted "Dune". *)
Lemma other_users_list_unchanged_witness :
  response (home (store (@dispatch_request demo (route_delete "1") store_AB
                           (Some 1) (post [])))
              (Some 2) get)
  = response (home store_AB (Some 2) get).
Proof.
  apply (@other_users_list_unchanged demo (route_delete "1") store_AB (Some 1)
           (post []) (Some 2) user_B get).
  - apply store_AB_schema.
  - reflexivity.
  - by intros u [= <-].
Defined.

Lemma register_then_login_witness :
  let out := @register demo store_AB None
               (register_post "Cy" "c@x.com" "secret3") in
  @login demo (store out) None (login_post "c@x.com" "secret3")
  = mkOutcome (store out) (session out) [] (redirect ep_home).
Proof.
  apply (@register_then_login demo store_AB None
           (register_post "Cy" "c@x.com" "secret3")
           (RegisterForm.mk "Cy" "c@x.com" "secret3") None
           (login_post "c@x.com" "secret3")); try reflexivity.
  intros u Hu. each_row Hu; by vm_compute.
Defined.

Lemma no_lookup_failure_witness :
  MethodNotAllowed = MethodNotAllowed /\ method get ∉ methods (route_delete "1").
Proof.
  apply (@no_lookup_failure demo store_AB
           [mkCall (Some 1) route_add (book_post "Solaris" "Lem" "8")]
           (route_delete "1") (Some 1) get MethodNotAllowed).
  - apply store_AB_titles.
  - reflexivity.
Defined.

Lemma book_fields_invariant_witness :
  Forall (fun b =>
            DataRequired (Book.title b) = true
            /\ DataRequired (Book.author b) = true
            /\ in_range (Book.rating b) = true)
    (books (@run demo store_AB
              [mkCall (Some 1) route_add (book_post "Solaris" "Lem" "8")])).
Proof.
  apply Forall_forall.
  apply (@book_fields_invariant demo store_AB).
  intros b Hb. each_row Hb; by vm_compute.
Defined.

Lemma owners_exist_invariant_witness :
  Forall (fun b =>
            exists u,
              u ∈ users (@run demo store_AB
                           [mkCall (Some 1) route_add
                              (book_post "Solaris" "Lem" "8")])
              /\ User.id u = Book.user_id b)
    (books (@run demo store_AB
              [mkCall (Some 1) route_add (book_post "Solaris" "Lem" "8")])).
Proof.
  apply Forall_forall.
  apply (@owners_exist_invariant demo store_AB).
  intros b Hb. each_row Hb.
  - exists user_A. split; [left|reflexivity].
  - exists user_B. split; [right; left|reflexivity].
Defined.

Lemma new_user_sees_no_books_witness :
  let out := @register demo store_AB None
               (register_post "Cy" "c@x.com" "secret3") in
  home (store out) (session out) get
  = mkOutcome (store out) (session out) [] (render_template (index_html [])).
Proof.
  apply (@new_user_sees_no_books demo store_AB None
           (register_post "Cy" "c@x.com" "secret3")
           (RegisterForm.mk "Cy" "c@x.com" "secret3") get).
  - intros b Hb. each_row Hb.
    + exists user_A. split; [left|reflexivity].
    + exists user_B. split; [right; left|reflexivity].
  - reflexivity.
  - intros u Hu. each_row Hu; by vm_compute.
Defined.

Lemma delete_then_gone_witness :
  let st' := store (@delete demo "1" store_AB (Some 1) (post [])) in
  let denied :=
    mkOutcome st' (Some 1) ["Book not found or access denied"]
      (redirect ep_home) in
  (dune ∉ books st')
  /\ @edit demo "1" st' (Some 1) (rating_post "5") = denied
  /\ @delete demo "1" st' (Some 1) (rating_post "5") = denied.
Proof.
  apply (@delete_then_gone demo store_AB (Some 1) user_A "1" (post []) dune
           (rating_post "5")).
  - apply store_AB_schema.
  - reflexivity.
  - left.
  - reflexivity.
  - reflexivity.
Defined.

(** A rates "Dune" -0: the page then shows 0. *)
Lemma edit_then_read_witness :
  let st' := store (@edit demo "1" store_AB (Some 1) (rating_post "-0")) in
  @edit demo "1" st' (Some 1) get
  = mkOutcome st' (Some 1) []
      (render_template (edit_html (Book.mk 1 "Dune" "Herbert" 0 1))).
Proof.
  apply (@edit_then_read demo store_AB (Some 1) user_A "1" (rating_post "-0")
           dune (-0)%float get).
  - apply store_AB_schema.
  - reflexivity.
  - left.
  - reflexivity.
  - reflexivity.
  - split; [reflexivity|]. by exists "-0".
  - reflexivity.
Defined.

Lemma add_then_list_witness :
  let out := @add demo store_AB (Some 1) (book_post "Solaris" "Lem" "8") in
  response (home (store out) (session out) get)
  = render_template (index_html [dune; Book.mk 3 "Solaris" "Lem" 8 1]).
Proof.
  apply (@add_then_list demo store_AB (Some 1) user_A
           (book_post "Solaris" "Lem" "8") (BookForm.mk "Solaris" "Lem" 8) get).
  - reflexivity.
  - by vm_compute.
  - intros b Hb. each_row Hb; by vm_compute.
Defined.

(** B adds "Solaris" after A has. *)
Lemma add_twice_skips_witness :
  let st' := store (@add demo store_AB (Some 1) (book_post "Solaris" "Lem" "8")) in
  @add demo st' (Some 2) (book_post "Solaris" "S. Lem" "3")
  = mkOutcome st' (Some 2) [] (redirect ep_home).
Proof.
  apply (@add_twice_skips demo store_AB (Some 1) user_A
           (book_post "Solaris" "Lem" "8") (BookForm.mk "Solaris" "Lem" 8)
           (Some 2) user_B (book_post "Solaris" "S. Lem" "3")
           (BookForm.mk "Solaris" "S. Lem" 3)).
  - reflexivity.
  - by vm_compute.
  - intros b Hb. each_row Hb; by vm_compute.
  - reflexivity.
  - by vm_compute.
  - reflexivity.
Defined.

Lemma login_refusal_uniform_witness :
  @login demo store_AB None (login_post "z@x.com" "secret1")
  = @login demo store_AB None (login_post "a@x.com" "secret2")
  /\ @login demo store_AB None (login_post "a@x.com" "secret2")
     = mkOutcome store_AB None ["Invalid email or password"] (redirect ep_login).
Proof.
  apply (@login_refusal_uniform demo store_AB None
           (login_post "z@x.com" "secret1") (LoginForm.mk "z@x.com" "secret1")
           (login_post "a@x.com" "secret2") (LoginForm.mk "a@x.com" "secret2")
           user_A).
  - apply store_AB_schema.
  - reflexivity.
  - reflexivity.
  - intros v Hv. each_row Hv; by vm_compute.
  - left.
  - reflexivity.
  - by vm_compute.
Defined.

(** A forged deletion of "Dune": no token, and the book is gone. *)
Lemma csrf_checked_by_forms_only_witness :
  let forged :=
    {| method := POST; request_form := []; csrf_valid := false; salt := "" |} in
  @delete demo "1" store_AB (Some 1) forged
  = mkOutcome {| users := [user_A; user_B]; books := [emma] |} (Some 1) []
      (redirect ep_home).
Proof.
  cbv zeta.
  rewrite (proj2 (proj2 (proj2 (proj2
             (@csrf_checked_by_forms_only demo store_AB (Some 1)
                {| method := POST; request_form := []; csrf_valid := false;
                   salt := "" |} "1" eq_refl))))).
  reflexivity.
Defined.

Lemma edit_commits_iff_witness :
  @edit demo "1" store_AB (Some 1) (rating_post "abc")
  = mkOutcome store_AB (Some 1) [] (render_template (edit_html dune)).
Proof.
  apply (proj1 (proj2 (proj2
           (@edit_commits_iff demo store_AB (Some 1) user_A "1"
              (rating_post "abc") dune (book_pk _ store_AB_schema)
              eq_refl (list_elem_of_here _ _) eq_refl eq_refl))))
    with (text := "abc"); reflexivity.
Defined.

(** A registration without a password field. *)
Lemma missing_field_rerenders_witness :
  @register demo store_AB None (post [("name", "Cy"); ("email", "c@x.com")])
  = mkOutcome store_AB None [] (render_template register_html).
Proof.
  apply (proj1 (@missing_field_rerenders demo store_AB None
                  (post [("name", "Cy"); ("email", "c@x.com")]))).
  right. right. by left.
Defined.

Lemma primary_keys_stay_unique_witness :
  let calls :=
    [ mkCall None route_register (register_post "Cy" "c@x.com" "secret3");
      mkCall (Some 1) route_add (book_post "Solaris" "Lem" "8");
      mkCall (Some 2) (route_delete "2") (post []) ] in
  NoDup (User.id <$> users (@run demo store_AB calls))
  /\ NoDup (Book.id <$> books (@run demo store_AB calls)).
Proof.
  apply (@primary_keys_stay_unique demo store_AB); apply store_AB_schema.
Defined.

Lemma user_fields_invariant_witness :
  Forall (fun u =>
            @email_validator demo (User.email u) = true
            /\ 2 <= String.length (User.name u) <= 100)
    (users (@run demo store_AB
              [mkCall None route_register
                 (register_post "Cy" "c@x.com" "secret3")])).
Proof.
  apply Forall_forall.
  apply (@user_fields_invariant demo store_AB).
  intros u Hu. each_row Hu; (split; [by vm_compute|simpl; lia]).
Defined.

(** A registers and adds "Dune"; B registers and adds "Dune" again: nothing
    is created. *)
Lemma add_skips_or_creates_witness :
  let calls :=
    [ mkCall None route_register (register_post "Ann" "a@x.com" "secret1");
      mkCall (Some 1) route_add (book_post "Dune" "Herbert" "9");
      mkCall None route_register (register_post "Bob" "b@x.com" "secret2") ] in
  @add demo (@run demo empty_store calls) (Some 2)
    (book_post "Dune" "F. Herbert" "5")
  = mkOutcome (@run demo empty_store calls) (Some 2) [] (redirect ep_home).
Proof.
  apply (@add_skips_or_creates demo
           [ mkCall None route_register (register_post "Ann" "a@x.com" "secret1");
             mkCall (Some 1) route_add (book_post "Dune" "Herbert" "9");
             mkCall None route_register (register_post "Bob" "b@x.com" "secret2") ]
           _ (Some 2) user_B (book_post "Dune" "F. Herbert" "5")
           (BookForm.mk "Dune" "F. Herbert" 5)).
  - reflexivity.
  - by vm_compute.
  - by vm_compute.
  - exists dune. split; [|reflexivity]. by vm_compute; left.
Defined.
